(** * SQM_GUI: the line parser and the reading request of the SQM serial GUI

    A shallow embedding of [src/SQM_GUI.py]:
    - [parse_lux_sqm], the parser of a [LUX:<value>,SQM:<value>] reply,
      with the Python string methods it calls ([in], [split], [strip],
      [startswith], [upper]) and the builtin [float] as a recogniser;
    - [get_reading], the button callback, as a program over the state of
      the GUI (the serial handle, the Tk variables, the dialogs shown and
      the trace of calls made on the serial object).

    A Python [str] is a sequence of Unicode code points: a character is a
    code point in [N] and a string is a list of them.  The white-space
    table of [str.strip] is short and written out.  The two large tables of
    the Unicode character database that [float] and [str.upper] consult
    above U+007F (decimal digit values, full upper-case mappings) are
    taken as a parameter [ucd]; on ASCII text nothing depends on it.

    The [print] calls that trace the callback on the terminal, and the
    time a read may block, are left out. *)

From Stdlib Require Import Ascii String List NArith Bool Lia.
From Stdlib Require Strings.Byte.
Import ListNotations.
Local Open Scope N_scope.
Local Open Scope list_scope.

(** ** Characters and strings *)

Definition char := N.
Definition str := list char.

(** The code point of an ASCII character, Python's [ord]. *)
Definition ord (a : ascii) : char := N_of_ascii a.
Arguments ord a%_char : simpl never.

(** A Python string literal (ASCII only in this development). *)
Definition py (s : string) : str := map ord (list_ascii_of_string s).
Arguments py s%_string.

Fixpoint str_eqb (s t : str) : bool :=
  match s, t with
  | [], [] => true
  | a :: s', b :: t' => (a =? b) && str_eqb s' t'
  | _, _ => false
  end.

(** The part of the Unicode character database that is not written out
    here: for a code point above U+007F, its decimal digit value
    ([Py_UNICODE_TODECIMAL], [None] for -1) and its full upper-case
    mapping (one to three code points). *)
Record UnicodeData := {
  ucd_todecimal : char -> option N;
  ucd_toupper : char -> str
}.

(** A database with no decimal digit and no case mapping above U+007F;
    it serves to run the functions on ASCII lines. *)
Definition ucd_basic : UnicodeData :=
  {| ucd_todecimal := fun _ => None; ucd_toupper := fun c => [c] |}.

(** ** String methods *)

(** [Py_UNICODE_ISSPACE]: the characters [str.strip] removes (bidirectional
    type WS, B or S, or category Zs). *)
Definition isspace (c : char) : bool :=
  ((0x09 <=? c) && (c <=? 0x0D)) || ((0x1C <=? c) && (c <=? 0x20))
  || (c =? 0x85) || (c =? 0xA0) || (c =? 0x1680)
  || ((0x2000 <=? c) && (c <=? 0x200A))
  || (c =? 0x2028) || (c =? 0x2029) || (c =? 0x202F) || (c =? 0x205F)
  || (c =? 0x3000).

(** [while p(c): c = next], the scanning loop: the characters skipped and
    the rest. *)
Fixpoint span (p : char -> bool) (s : str) : str * str :=
  match s with
  | [] => ([], [])
  | c :: s' => if p c then let (a, b) := span p s' in (c :: a, b) else ([], s)
  end.

Definition lstrip (s : str) : str := snd (span isspace s).
Definition rstrip (s : str) : str := rev (lstrip (rev s)).
(** [s.strip()] *)
Definition strip (s : str) : str := rstrip (lstrip s).

(** [s.startswith(p)] *)
Fixpoint startswith (p s : str) : bool :=
  match p, s with
  | [], _ => true
  | a :: p', b :: s' => (a =? b) && startswith p' s'
  | _ :: _, [] => false
  end.

(** [p in s] *)
Fixpoint contains (p s : str) : bool :=
  startswith p s ||
  match s with
  | [] => false
  | _ :: s' => contains p s'
  end.

(** [s.split(sep, maxsplit)] for a separator of one character. *)
Fixpoint split (sep : char) (maxsplit : nat) (s : str) {struct s} : list str :=
  match maxsplit, s with
  | O, _ => [s]
  | _, [] => [[]]
  | S m, c :: s' =>
      if c =? sep then [] :: split sep m s'
      else match split sep maxsplit s' with
           | p :: ps => (c :: p) :: ps
           | [] => [[c]]
           end
  end.

(** [Py_UNICODE_TOUPPER] with the full mapping: ASCII letters written
    out, the database above. *)
Definition toupper (ucd : UnicodeData) (c : char) : str :=
  if c <? 0x80 then
    if (ord "a" <=? c) && (c <=? ord "z") then [c - 32] else [c]
  else ucd_toupper ucd c.

(** [s.upper()] *)
Definition upper (ucd : UnicodeData) (s : str) : str := flat_map (toupper ucd) s.

(** ** [float(s)] as a recogniser

    [float] is called for its exception only, so the model decides
    whether CPython converts the string, following [PyFloat_FromString]:
    [_PyUnicode_TransformDecimalAndSpaceToASCII], then
    [_Py_string_to_number_with_underscores], then
    [float_from_string_inner] over [_Py_dg_strtod] and
    [_Py_parse_inf_or_nan].  A NUL character is an ordinary character
    here: in C it ends the scan early, and the conversion is refused on
    every path, as it is below where no rule accepts it. *)

Definition is_digit (c : char) : bool := (ord "0" <=? c) && (c <=? ord "9").
Definition is_zero (c : char) : bool := c =? ord "0".

(** [Py_ISSPACE], the C locale's white space. *)
Definition Py_ISSPACE (c : char) : bool :=
  ((0x09 <=? c) && (c <=? 0x0D)) || (c =? 0x20).

Definition Py_UNICODE_TODECIMAL (ucd : UnicodeData) (c : char) : option N :=
  if c <? 0x80 then (if is_digit c then Some (c - ord "0") else None)
  else ucd_todecimal ucd c.

(** The loop of [_PyUnicode_TransformDecimalAndSpaceToASCII]: a character
    that is neither ASCII, white space nor a decimal digit becomes [?] and
    ends the output. *)
Fixpoint transform_loop (ucd : UnicodeData) (s : str) : str :=
  match s with
  | [] => []
  | c :: s' =>
      if c <? 127 then c :: transform_loop ucd s'
      else if isspace c then ord " " :: transform_loop ucd s'
      else match Py_UNICODE_TODECIMAL ucd c with
           | None => [ord "?"]
           | Some d => (ord "0" + d) :: transform_loop ucd s'
           end
  end.

Definition TransformDecimalAndSpaceToASCII (ucd : UnicodeData) (s : str) : str :=
  if forallb (fun c => c <? 0x80) s then s else transform_loop ucd s.

(** The copying loop of [_Py_string_to_number_with_underscores]: an
    underscore is dropped when it stands between two digits, and refused
    ([None]) elsewhere. *)
Fixpoint drop_underscores (prev : char) (s : str) : option str :=
  match s with
  | [] => if prev =? ord "_" then None else Some []
  | c :: s' =>
      if c =? ord "_" then
        if is_digit prev then drop_underscores c s' else None
      else if (prev =? ord "_") && negb (is_digit c) then None
      else option_map (cons c) (drop_underscores c s')
  end.

Definition without_underscores (s : str) : option str :=
  if existsb (fun c => c =? ord "_") s then drop_underscores 0 s else Some s.

Definition skip_sign (s : str) : str :=
  match s with
  | c :: s' => if (c =? ord "-") || (c =? ord "+") then s' else s
  | [] => []
  end.

Definition MAX_DIGITS : N := 1000000000.

Definition nonempty (s : str) : bool := match s with [] => false | _ => true end.
Definition len (s : str) : N := N.of_nat (length s).

(** The exponent of [_Py_dg_strtod], entered at [e] or [E]: with no
    digit after it, the scan goes back to the [e]. *)
Definition strtod_exponent (s : str) : str :=
  match s with
  | c :: s' =>
      if (c =? ord "e") || (c =? ord "E") then
        let s1 := skip_sign s' in
        let (ezeros, s2) := span is_zero s1 in
        let (edigits, s3) := span is_digit s2 in
        if nonempty ezeros || nonempty edigits then s3 else s
      else s
  | [] => []
  end.

(** The parsing part of [_Py_dg_strtod]: [Some rest] with the text left
    after the number, [None] on a parse error (nothing consumed). *)
Definition Py_dg_strtod (s00 : str) : option str :=
  let s := skip_sign s00 in
  let (zeros, s) := span is_zero s in
  let lz := nonempty zeros in
  let (digits, s) := span is_digit s in
  let ndigits := len digits in
  let '(lz, ndigits, fraclen, s) :=
    match s with
    | c :: s' =>
        if c =? ord "." then
          let '(lz, fraclen, s') :=
            if ndigits =? 0 then
              let (fzeros, s'') := span is_zero s' in
              (lz || nonempty fzeros, len fzeros, s'')
            else (lz, 0, s') in
          let (fdigits, s'') := span is_digit s' in
          (lz, ndigits + len fdigits, fraclen + len fdigits, s'')
        else (lz, ndigits, 0, s)
    | [] => (lz, ndigits, 0, s)
    end in
  if (ndigits =? 0) && negb lz then None
  else if (MAX_DIGITS <? ndigits) || (MAX_DIGITS <? fraclen) then None
  else Some (strtod_exponent s).

(** [Py_TOLOWER] on the characters that matter and [case_insensitive_match]. *)
Definition Py_TOLOWER (c : char) : char :=
  if (ord "A" <=? c) && (c <=? ord "Z") then c + 32 else c.

Fixpoint case_insensitive_match (s t : str) {struct t} : option str :=
  match t, s with
  | [], _ => Some s
  | b :: t', a :: s' =>
      if Py_TOLOWER a =? b then case_insensitive_match s' t' else None
  | _ :: _, [] => None
  end.

(** [_Py_parse_inf_or_nan]: [Some rest], or [None] when nothing matches. *)
Definition Py_parse_inf_or_nan (p : str) : option str :=
  let s := skip_sign p in
  match case_insensitive_match s (py "inf") with
  | Some s' =>
      match case_insensitive_match s' (py "inity") with
      | Some s'' => Some s''
      | None => Some s'
      end
  | None => case_insensitive_match s (py "nan")
  end.

(** [_PyOS_ascii_strtod]: the number, or else an infinity or a NaN. *)
Definition PyOS_ascii_strtod (s : str) : option str :=
  match Py_dg_strtod s with
  | Some rest => Some rest
  | None => Py_parse_inf_or_nan s
  end.

(** [float_from_string_inner]: the text between the white space must be
    consumed whole. *)
Definition float_from_string_inner (s : str) : bool :=
  let s := snd (span Py_ISSPACE s) in
  match s with
  | [] => false
  | _ =>
      let s := rev (snd (span Py_ISSPACE (rev s))) in
      match PyOS_ascii_strtod s with
      | Some [] => true
      | _ => false
      end
  end.

(** [true] when [float(s)] returns, [false] when it raises [ValueError]. *)
Definition float_ok (ucd : UnicodeData) (s : str) : bool :=
  match without_underscores (TransformDecimalAndSpaceToASCII ucd s) with
  | Some t => float_from_string_inner t
  | None => false
  end.

(** ** Exceptions *)

(** The [ValueError]s of the parser, by message. *)
Inductive ValueError :=
| NoMarkers (line : str)
    (** [No LUX:/SQM: markers in line: {line}] *)
| WrongNumberOfFields (got : nat) (line : str)
    (** [Wrong number of fields (expected 2, got {got}). Line: {line}] *)
| BadPrefix (line : str)
    (** [Line does not start with LUX: and SQM:. Line: {line}] *)
| CouldNotConvert (s : str).
    (** [float]: [could not convert string to float: {s!r}] *)

Inductive exn :=
| EValueError (e : ValueError)
| EIndexError
| ESerialException (message : str).

Definition result (A : Type) : Type := exn + A.

Definition raise {A} (e : exn) : result A := inl e.
Definition bind {A B} (m : result A) (k : A -> result B) : result B :=
  match m with
  | inl e => inl e
  | inr a => k a
  end.

Declare Scope py_scope.
Delimit Scope py_scope with py.
Notation "x <- m ;; k" := (bind m (fun x => k))
  (at level 61, m at next level, right associativity) : py_scope.
Notation "m ;; k" := (bind m (fun _ => k))
  (at level 61, right associativity) : py_scope.

(** [float(s)], kept for its exception. *)
Definition float (ucd : UnicodeData) (s : str) : result unit :=
  if float_ok ucd s then inr tt else raise (EValueError (CouldNotConvert s)).

(** [parts[1]] *)
Definition item1 (parts : list str) : result str :=
  match nth_error parts 1 with
  | Some x => inr x
  | None => raise EIndexError
  end.

(** ** [parse_lux_sqm] *)

Definition parse_lux_sqm (ucd : UnicodeData) (line : str) : result (str * str) :=
  if negb (contains (py "LUX:") line) || negb (contains (py "SQM:") line) then
    raise (EValueError (NoMarkers line))
  else
    match split (ord ",") 1 line with
    | [part0; part1] =>
        let lux_part := strip part0 in
        let sqm_part := strip part1 in
        if negb (startswith (py "LUX:") lux_part)
           || negb (startswith (py "SQM:") sqm_part) then
          raise (EValueError (BadPrefix line))
        else
          (lux_field <- item1 (split (ord ":") 1 lux_part) ;;
           let lux_str := strip lux_field in
           sqm_field <- item1 (split (ord ":") 1 sqm_part) ;;
           let sqm_str := strip sqm_field in
           float ucd lux_str ;;
           (if negb (str_eqb (upper ucd sqm_str) (py "NAN"))
            then float ucd sqm_str else inr tt) ;;
           inr (lux_str, sqm_str))%py
    | parts => raise (EValueError (WrongNumberOfFields (length parts) line))
    end.

(** ** [bytes.decode("utf-8", errors="ignore")] *)

Definition is_continuation (b : N) : bool := (0x80 <=? b) && (b <=? 0xBF).

(** CPython's decoder: an invalid start byte is dropped alone, an invalid
    continuation drops the bytes read before it, and a sequence cut by
    the end of the data drops what is left. *)
Fixpoint utf8_decode_ignore (bs : list N) : str :=
  match bs with
  | [] => []
  | b0 :: t =>
      if b0 <? 0x80 then b0 :: utf8_decode_ignore t
      else if b0 <? 0xC2 then utf8_decode_ignore t
      else if b0 <? 0xE0 then
        match t with
        | [] => []
        | b1 :: t1 =>
            if is_continuation b1
            then ((b0 - 0xC0) * 64 + (b1 - 0x80)) :: utf8_decode_ignore t1
            else utf8_decode_ignore t
        end
      else if b0 <? 0xF0 then
        match t with
        | [] => []
        | b1 :: t1 =>
            if negb (is_continuation b1)
               || (if b1 <? 0xA0 then b0 =? 0xE0 else b0 =? 0xED)
            then utf8_decode_ignore t
            else
              match t1 with
              | [] => []
              | b2 :: t2 =>
                  if is_continuation b2
                  then ((b0 - 0xE0) * 4096 + (b1 - 0x80) * 64 + (b2 - 0x80))
                         :: utf8_decode_ignore t2
                  else utf8_decode_ignore t1
              end
        end
      else if b0 <? 0xF5 then
        match t with
        | [] => []
        | b1 :: t1 =>
            if negb (is_continuation b1)
               || (if b1 <? 0x90 then b0 =? 0xF0 else b0 =? 0xF4)
            then utf8_decode_ignore t
            else
              match t1 with
              | [] => []
              | b2 :: t2 =>
                  if negb (is_continuation b2) then utf8_decode_ignore t1
                  else
                    match t2 with
                    | [] => []
                    | b3 :: t3 =>
                        if is_continuation b3
                        then ((b0 - 0xF0) * 262144 + (b1 - 0x80) * 4096
                              + (b2 - 0x80) * 64 + (b3 - 0x80))
                               :: utf8_decode_ignore t3
                        else utf8_decode_ignore t2
                    end
              end
        end
      else utf8_decode_ignore t
  end.

Definition bytes := list Byte.byte.

Definition decode (bs : bytes) : str := utf8_decode_ignore (map Byte.to_N bs).

(** A bytes literal. *)
Definition b (s : string) : bytes := list_byte_of_string s.
Arguments b s%_string.

(** ** The GUI state and [get_reading] *)

(** The global [ser]: [None], or a [serial.Serial] object. *)
Record Serial := { port : str; is_open : bool }.

(** The methods [get_reading] calls on [ser]. *)
Inductive serial_call :=
| reset_input_buffer
| reset_output_buffer
| write (data : bytes)
| flush
| readline.

Inductive messagebox :=
| showwarning (title message : str)
| showerror (title message : str) (e : exn).
    (** the text shown is the message followed by [e] *)

(** The state the callback works on: the serial handle, the three Tk
    variables of the reading, the dialogs shown so far and the calls made
    so far on the serial object, oldest first. *)
Record Gui := {
  ser : option Serial;
  raw_var : str;
  lux_var : str;
  sqm_var : str;
  dialogs : list messagebox;
  wire : list serial_call
}.

(** The other end of the link during one request: the call that raises
    [SerialException] (with its message), if any, and the bytes
    [readline] returns ([b""] after a timeout). *)
Record Device := {
  fault : serial_call -> option str;
  reply : bytes
}.

Definition M (A : Type) : Type := Gui -> result A * Gui.

Definition ret {A} (a : A) : M A := fun g => (inr a, g).
Definition throw {A} (e : exn) : M A := fun g => (inl e, g).
Definition mbind {A B} (m : M A) (k : A -> M B) : M B :=
  fun g => match m g with
           | (inl e, g') => (inl e, g')
           | (inr a, g') => k a g'
           end.
(** [try: body  except <handled by h>: ...] *)
Definition try_except {A} (body : M A) (h : exn -> M A) : M A :=
  fun g => match body g with
           | (inl e, g') => h e g'
           | r => r
           end.

Declare Scope gui_scope.
Delimit Scope gui_scope with gui.
Notation "x <- m ;; k" := (mbind m (fun x => k))
  (at level 61, m at next level, right associativity) : gui_scope.
Notation "m ;; k" := (mbind m (fun _ => k))
  (at level 61, right associativity) : gui_scope.

Definition raw_var_set (v : str) : M unit := fun g =>
  (inr tt, {| ser := ser g; raw_var := v; lux_var := lux_var g; sqm_var := sqm_var g;
              dialogs := dialogs g; wire := wire g |}).
Definition lux_var_set (v : str) : M unit := fun g =>
  (inr tt, {| ser := ser g; raw_var := raw_var g; lux_var := v; sqm_var := sqm_var g;
              dialogs := dialogs g; wire := wire g |}).
Definition sqm_var_set (v : str) : M unit := fun g =>
  (inr tt, {| ser := ser g; raw_var := raw_var g; lux_var := lux_var g; sqm_var := v;
              dialogs := dialogs g; wire := wire g |}).
Definition messagebox_show (d : messagebox) : M unit := fun g =>
  (inr tt, {| ser := ser g; raw_var := raw_var g; lux_var := lux_var g;
              sqm_var := sqm_var g; dialogs := dialogs g ++ [d]; wire := wire g |}).

(** A call on [ser]: it is recorded, then it returns or raises as the
    device has it. *)
Definition ser_call (dev : Device) (c : serial_call) : M unit := fun g =>
  let g' := {| ser := ser g; raw_var := raw_var g; lux_var := lux_var g;
               sqm_var := sqm_var g; dialogs := dialogs g; wire := wire g ++ [c] |} in
  match fault dev c with
  | Some message => (inl (ESerialException message), g')
  | None => (inr tt, g')
  end.

Definition ser_readline (dev : Device) : M bytes :=
  (ser_call dev readline ;; ret (reply dev))%gui.

(** [ser is None or not ser.is_open] *)
Definition not_connected (g : Gui) : bool :=
  match ser g with
  | None => true
  | Some s => negb (is_open s)
  end.

Definition get_reading (ucd : UnicodeData) (dev : Device) : M unit :=
  fun g =>
  if not_connected g then
    messagebox_show
      (showwarning (py "Not connected") (py "Please connect to a serial port first.")) g
  else
    try_except
      (ser_call dev reset_input_buffer ;;
       ser_call dev reset_output_buffer ;;
       ser_call dev (write (b "R" ++ [Byte.x0a])) ;;
       ser_call dev flush ;;
       data <- ser_readline dev ;;
       let line := strip (decode data) in
       if negb (nonempty line) then
         messagebox_show (showwarning (py "Timeout") (py "No data received (timeout).")) ;;
         raw_var_set (py "<no data>") ;;
         lux_var_set (py "--") ;;
         sqm_var_set (py "--")
       else
         raw_var_set line ;;
         match parse_lux_sqm ucd line with
         | inr (lux_str, sqm_str) =>
             lux_var_set lux_str ;;
             sqm_var_set sqm_str
         | inl (EValueError e) =>
             lux_var_set (py "--") ;;
             sqm_var_set (py "--") ;;
             messagebox_show
               (showerror (py "Parse error")
                  (py "Could not understand data from Arduino:" ++ [0x0A])
                  (EValueError e))
         | inl e => throw e
         end)%gui
      (fun e =>
         match e with
         | ESerialException _ =>
             messagebox_show
               (showerror (py "Serial error")
                  (py "Serial communication error:" ++ [0x0A]) e)
         | _ => throw e
         end)
      g.

(** ** The vocabulary of the statements *)

(** A string with a first character that is not white space. *)
Definition head_solid (s : str) : Prop :=
  exists c t, s = c :: t /\ isspace c = false.
(** A string with a last character that is not white space. *)
Definition last_solid (s : str) : Prop :=
  exists t c, s = t ++ [c] /\ isspace c = false.

(** Characters that no rule of [float] consumes: the comma, and the [?]
    written for a foreign character. *)
Definition refused (c : char) : bool := (c =? ord ",") || (c =? ord "?").

Definition clean (s : str) : Prop := forall c, In c s -> refused c = false.

(** [r] is what is left of [s] after a clean prefix. *)
Definition consumes (s r : str) : Prop := exists p, s = p ++ r /\ clean p.

(** A string of lower-case ASCII letters. *)
Definition lower_letters (t : str) : Prop :=
  forall c, In c t -> ord "a" <= c <= ord "z".

(** Equality up to the case of ASCII letters. *)
Fixpoint caseless_eqb (s t : str) : bool :=
  match s, t with
  | [], [] => true
  | a :: s', c :: t' => (Py_TOLOWER a =? Py_TOLOWER c) && caseless_eqb s' t'
  | _, _ => false
  end.

(** A string of white space only (possibly empty). *)
Definition all_space (w : str) : bool := forallb isspace w.

(** The validation of the two candidate texts, the last step of the parser. *)
Definition validate (ucd : UnicodeData) (lux_str sqm_str : str) : result (str * str) :=
  (float ucd lux_str ;;
   (if negb (str_eqb (upper ucd sqm_str) (py "NAN"))
    then float ucd sqm_str else inr tt) ;;
   inr (lux_str, sqm_str))%py.

(** A numeric text: a string [float] converts, with no white space
    around it. *)
Definition numeric_text (ucd : UnicodeData) (s : str) : Prop :=
  float_ok ucd s = true /\ strip s = s.

(** The text [NAN] in any mix of (ASCII) upper and lower case. *)
Definition nan_text (s : str) : Prop := caseless_eqb s (py "NAN") = true.

(** The first and second parts of the line cut at its first comma,
    trimmed (the empty string where the part is missing). *)
Definition lux_part (line : str) : str := strip (nth 0 (split (ord ",") 1 line) []).
Definition sqm_part (line : str) : str := strip (nth 1 (split (ord ",") 1 line) []).

(** The candidate texts: what follows the first colon of each part,
    trimmed (the empty string where there is none). *)
Definition lux_candidate (line : str) : str :=
  strip (nth 1 (split (ord ":") 1 (lux_part line)) []).
Definition sqm_candidate (line : str) : str :=
  strip (nth 1 (split (ord ":") 1 (sqm_part line)) []).

(** The calls of one request, in the order the callback makes them. *)
Definition request_calls : list serial_call :=
  [reset_input_buffer; reset_output_buffer; write (b "R" ++ [Byte.x0a]); flush; readline].

(** The window as the script creates it: no connection, the two value
    labels at [--], the raw line empty. *)
Definition gui_start : Gui :=
  {| ser := None; raw_var := []; lux_var := py "--"; sqm_var := py "--";
     dialogs := []; wire := [] |}.

(** The window after a first successful [connect_serial] on [p]. *)
Definition gui_connected (p : str) : Gui :=
  {| ser := Some {| port := p; is_open := true |};
     raw_var := []; lux_var := py "--"; sqm_var := py "--";
     dialogs := []; wire := [] |}.

(** A device that never answers: no call raises, [readline] times out. *)
Definition device_silent : Device := {| fault := fun _ => None; reply := [] |}.

(** ** The window: [refresh_ports] and [connect_serial] *)

Definition BAUD_RATE : N := 115200.

(** The calls the script makes on the host, beside those on the open
    serial object: [ser.close()] on the connection to a port,
    [serial.Serial(port, baudrate, timeout=, write_timeout=)], and
    [time.sleep(seconds)]. *)
Inductive host_call :=
| ser_close (p : str)
| Serial_new (p : str) (baudrate timeout write_timeout : N)
| time_sleep (seconds : N).

(** The host during one callback: the devices [comports()] lists, the
    [SerialException] (its message) that opening a port raises, if any,
    and the one that closing the current connection raises, if any. *)
Record Host := {
  comports : list str;
  open_error : str -> option str;
  close_error : option str
}.

(** The whole window: the state [get_reading] works on, the status line,
    the combobox of ports (its list and its current text), and the calls
    made so far on the host, oldest first. *)
Record Window := {
  gui : Gui;
  status_var : str;
  port_combo_values : list str;
  port_combo_text : str;
  host_log : list host_call
}.

Definition W (A : Type) : Type := Window -> result A * Window.

Definition wret {A} (a : A) : W A := fun w => (inr a, w).
Definition wthrow {A} (e : exn) : W A := fun w => (inl e, w).
Definition wbind {A B} (m : W A) (k : A -> W B) : W B :=
  fun w => match m w with
           | (inl e, w') => (inl e, w')
           | (inr a, w') => k a w'
           end.
Definition wtry_except {A} (body : W A) (h : exn -> W A) : W A :=
  fun w => match body w with
           | (inl e, w') => h e w'
           | r => r
           end.

Declare Scope win_scope.
Delimit Scope win_scope with win.
Notation "x <- m ;; k" := (wbind m (fun x => k))
  (at level 61, m at next level, right associativity) : win_scope.
Notation "m ;; k" := (wbind m (fun _ => k))
  (at level 61, right associativity) : win_scope.

Definition with_gui (g : Gui) (w : Window) : Window :=
  {| gui := g; status_var := status_var w;
     port_combo_values := port_combo_values w;
     port_combo_text := port_combo_text w; host_log := host_log w |}.

(** A step on the state of [get_reading], run in the window. *)
Definition in_gui {A} (m : M A) : W A := fun w =>
  let (r, g') := m (gui w) in (r, with_gui g' w).

(** [ser = v] *)
Definition ser_assign (v : option Serial) : M unit := fun g =>
  (inr tt, {| ser := v; raw_var := raw_var g; lux_var := lux_var g;
              sqm_var := sqm_var g; dialogs := dialogs g; wire := wire g |}).

Definition status_var_set (v : str) : W unit := fun w =>
  (inr tt, {| gui := gui w; status_var := v;
              port_combo_values := port_combo_values w;
              port_combo_text := port_combo_text w; host_log := host_log w |}).

(** A call on the host: it is recorded, then it returns or raises. *)
Definition host_do (c : host_call) (error : option str) : W unit := fun w =>
  let w' := {| gui := gui w; status_var := status_var w;
               port_combo_values := port_combo_values w;
               port_combo_text := port_combo_text w;
               host_log := host_log w ++ [c] |} in
  match error with
  | Some message => (inl (ESerialException message), w')
  | None => (inr tt, w')
  end.

(** [list_serial_ports]: the device names of [comports()]. *)
Definition list_serial_ports (host : Host) : list str := comports host.

(** [refresh_ports]: the combobox lists the ports and selects the first,
    or is cleared when there is none. *)
Definition refresh_ports (host : Host) (w : Window) : Window :=
  let ports := list_serial_ports host in
  {| gui := gui w; status_var := status_var w;
     port_combo_values := ports;
     port_combo_text := match ports with
                        | p :: _ => p
                        | [] => []
                        end;
     host_log := host_log w |}.

(** [connect_serial].  [dev] is the device behind the port that is
    opened. *)
Definition connect_serial (host : Host) (dev : Device) : W unit :=
  fun w =>
  let port_name := strip (port_combo_text w) in
  wtry_except
    ((match ser (gui w) with
      | Some s =>
          if is_open s then
            host_do (ser_close (port s)) (close_error host) ;;
            in_gui (ser_assign (Some {| port := port s; is_open := false |}))
          else wret tt
      | None => wret tt
      end) ;;
     host_do (Serial_new port_name BAUD_RATE 3 3) (open_error host port_name) ;;
     in_gui (ser_assign (Some {| port := port_name; is_open := true |})) ;;
     status_var_set (py "Connected to " ++ port_name) ;;
     host_do (time_sleep 2) None ;;
     in_gui (ser_call dev reset_input_buffer))%win
    (fun e =>
       match e with
       | ESerialException _ =>
           (in_gui (ser_assign None) ;;
            status_var_set (py "Not connected") ;;
            in_gui (messagebox_show
                      (showerror (py "Connection error")
                         (py "Could not open port " ++ port_name ++ py ":" ++ [0x0A])
                         e)))%win
       | _ => wthrow e
       end)
    w.

(** The callback of the Get Reading button, in the window. *)
Definition get_reading_button (ucd : UnicodeData) (dev : Device) : W unit :=
  in_gui (get_reading ucd dev).

(** The window when the main loop starts: the variables as created, the
    combobox after the first [refresh_ports]. *)
Definition window_start (host : Host) : Window :=
  refresh_ports host
    {| gui := gui_start; status_var := py "Not connected";
       port_combo_values := []; port_combo_text := []; host_log := [] |}.

(** The states the window goes through: a button is pressed, its
    callback runs to its end on whatever the host and the device do. *)
Inductive reachable (ucd : UnicodeData) : Window -> Prop :=
| reach_start host : reachable ucd (window_start host)
| reach_refresh host w :
    reachable ucd w -> reachable ucd (refresh_ports host w)
| reach_connect host dev w :
    reachable ucd w -> reachable ucd (snd (connect_serial host dev w))
| reach_reading dev w :
    reachable ucd w -> reachable ucd (snd (get_reading_button ucd dev w)).

(** The status line agrees with the connection handle. *)
Definition status_agrees (w : Window) : Prop :=
  (ser (gui w) = None /\ status_var w = py "Not connected")
  \/ (exists p, ser (gui w) = Some {| port := p; is_open := true |}
                /\ status_var w = py "Connected to " ++ p).

(** What the two value labels may show: [--], or a text that passed the
    validation of the parser. *)
Definition lux_shown_ok (ucd : UnicodeData) (v : str) : Prop :=
  v = py "--" \/ float_ok ucd v = true.
Definition sqm_shown_ok (ucd : UnicodeData) (v : str) : Prop :=
  v = py "--" \/ float_ok ucd v = true
  \/ str_eqb (upper ucd v) (py "NAN") = true.

(** The call [connect_serial] makes first on the host: it closes the
    connection that is open, if there is one. *)
Definition closing (w : Window) : list host_call :=
  match ser (gui w) with
  | Some s => if is_open s then [ser_close (port s)] else []
  | None => []
  end.

Definition connect_error_dialog (port_name message : str) : messagebox :=
  showerror (py "Connection error")
    (py "Could not open port " ++ port_name ++ py ":" ++ [0x0A])
    (ESerialException message).

(** The window after [connect_serial]: the handle and the status as
    given, the dialogs and the calls added, the rest as it was. *)
Definition window_after (w : Window) (handle : option Serial) (status : str)
    (shown : list messagebox) (calls : list serial_call)
    (hosted : list host_call) : Window :=
  {| gui := {| ser := handle; raw_var := raw_var (gui w);
               lux_var := lux_var (gui w); sqm_var := sqm_var (gui w);
               dialogs := dialogs (gui w) ++ shown;
               wire := wire (gui w) ++ calls |};
     status_var := status;
     port_combo_values := port_combo_values w;
     port_combo_text := port_combo_text w;
     host_log := host_log w ++ hosted |}.

(** A host with one port that opens, and a host with no port, on which
    nothing opens. *)
Definition host_one_port (p : str) : Host :=
  {| comports := [p]; open_error := fun _ => None; close_error := None |}.
Definition host_no_port : Host :=
  {| comports := [];
     open_error := fun _ => Some (py "could not open port");
     close_error := None |}.

(** The combobox shows one of the ports it lists, or nothing. *)
Definition selection_listed (w : Window) : Prop :=
  port_combo_text w = [] \/ In (port_combo_text w) (port_combo_values w).

(** The window after the script starts on a host with the one port [p]
    and the Connect button is pressed. *)
Definition window_connected (p : str) : Window :=
  snd (connect_serial (host_one_port p) device_silent
         (window_start (host_one_port p))).


(** The state after a callback that leaves [ser] alone: the three
    variables as given, the dialogs and the calls added. *)
Definition gui_after (g : Gui) (raw lux sqm : str)
    (shown : list messagebox) (calls : list serial_call) : Gui :=
  {| ser := ser g; raw_var := raw; lux_var := lux; sqm_var := sqm;
     dialogs := dialogs g ++ shown; wire := wire g ++ calls |}.

Definition serial_error_dialog (message : str) : messagebox :=
  showerror (py "Serial error") (py "Serial communication error:" ++ [0x0A])
    (ESerialException message).

Definition parse_error_dialog (e : exn) : messagebox :=
  showerror (py "Parse error")
    (py "Could not understand data from Arduino:" ++ [0x0A]) e.

(** A string of ASCII characters. *)
Definition is_ascii (s : str) : bool := forallb (fun c => c <? 0x80) s.

(** The number of commas of a line. *)
Definition commas (line : str) : nat := count_occ N.eq_dec line (ord ",").


(** * Properties *)

(** Tactics for comparisons of characters. *)

Ltac ord_norm :=
  repeat match goal with
  | |- context [ord ?a] =>
      let v := eval vm_compute in (ord a) in change (ord a) with v
  | H : context [ord ?a] |- _ =>
      let v := eval vm_compute in (ord a) in change (ord a) with v in H
  end.

Ltac case_if E :=
  match goal with
  | |- context [if ?b then _ else _] => destruct b eqn:E
  end.

Ltac char_cases :=
  ord_norm;
  repeat match goal with
  | H : context [N.eqb ?a ?b] |- _ => destruct (N.eqb_spec a b)
  | H : context [N.leb ?a ?b] |- _ => destruct (N.leb_spec a b)
  | H : context [N.ltb ?a ?b] |- _ => destruct (N.ltb_spec a b)
  | |- context [N.eqb ?a ?b] => destruct (N.eqb_spec a b)
  | |- context [N.leb ?a ?b] => destruct (N.leb_spec a b)
  | |- context [N.ltb ?a ?b] => destruct (N.ltb_spec a b)
  end;
  simpl in *; try reflexivity; try discriminate; try lia.

Ltac reassoc :=
  simpl; repeat (rewrite <- app_assoc || rewrite <- app_comm_cons); reflexivity.

Ltac fault_case :=
  split; [reflexivity|];
  split; [intros ? Hd; simpl in Hd; intuition (subst; assumption)|];
  split; [assumption|];
  unfold gui_after, messagebox_show, serial_error_dialog; simpl;
  rewrite <- ?app_assoc; reflexivity.

(** ** Lists of characters *)

Lemma str_eqb_eq (s t : str) : str_eqb s t = true <-> s = t.
Proof.
  revert t; induction s as [|a s IH]; intros [|c t]; simpl; split;
    try congruence; try reflexivity.
  - intros H. apply andb_true_iff in H as [H1 H2].
    apply N.eqb_eq in H1. apply IH in H2. congruence.
  - intros H. injection H as -> ->. rewrite N.eqb_refl. simpl. now apply IH.
Qed.

Lemma span_app p s : s = fst (span p s) ++ snd (span p s).
Proof.
  induction s as [|c s IH]; simpl; [reflexivity|].
  destruct (p c); [|reflexivity].
  destruct (span p s) as [a r]; simpl in *. now rewrite <- IH.
Qed.

Lemma span_fst_all p s : forallb p (fst (span p s)) = true.
Proof.
  induction s as [|c s IH]; simpl; [reflexivity|].
  destruct (p c) eqn:E; [|reflexivity].
  destruct (span p s) as [a r]; simpl in *. now rewrite E.
Qed.

Lemma span_all_app p w s :
  forallb p w = true -> snd (span p (w ++ s)) = snd (span p s).
Proof.
  induction w as [|c w IH]; simpl; [reflexivity|].
  intros H. apply andb_true_iff in H as [-> H].
  specialize (IH H). destruct (span p (w ++ s)); simpl in *. exact IH.
Qed.

Lemma span_all_nil p w : forallb p w = true -> snd (span p w) = [].
Proof.
  intros H. rewrite <- (app_nil_r w). now rewrite span_all_app.
Qed.

Lemma span_snd_length p s : (length (snd (span p s)) <= length s)%nat.
Proof.
  induction s as [|c s IH]; simpl; [lia|].
  destruct (p c); simpl; [|lia].
  destruct (span p s); simpl in *. lia.
Qed.

Lemma span_snd_In p s c : In c s -> p c = false -> In c (snd (span p s)).
Proof.
  induction s as [|d s IH]; simpl; [tauto|].
  intros [->|H] Hc.
  - rewrite Hc. now left.
  - destruct (p d); [|now right].
    specialize (IH H Hc). destruct (span p s); simpl in *. exact IH.
Qed.

Lemma span_snd_incl p s c : In c (snd (span p s)) -> In c s.
Proof.
  intros H. rewrite (span_app p s). apply in_or_app. now right.
Qed.

(** ** [strip] *)

Lemma lstrip_ws_app w s : forallb isspace w = true -> lstrip (w ++ s) = lstrip s.
Proof. apply span_all_app. Qed.

Lemma lstrip_ws w : forallb isspace w = true -> lstrip w = [].
Proof. apply span_all_nil. Qed.

Lemma lstrip_solid s : head_solid s -> lstrip s = s.
Proof. intros (c & t & -> & H). unfold lstrip. simpl. now rewrite H. Qed.

Lemma lstrip_app_solid u v : head_solid v -> lstrip (u ++ v) = lstrip u ++ v.
Proof.
  intros Hv. induction u as [|c u IH]; simpl.
  - now apply lstrip_solid.
  - unfold lstrip in *. simpl. destruct (isspace c); [|reflexivity].
    destruct (span isspace (u ++ v)), (span isspace u); simpl in *. exact IH.
Qed.

Lemma last_solid_rev s : last_solid s -> head_solid (rev s).
Proof.
  intros (t & c & -> & H). exists c, (rev t). split; [|exact H].
  now rewrite rev_app_distr.
Qed.

Lemma rstrip_app_solid m x : last_solid m -> rstrip (m ++ x) = m ++ rstrip x.
Proof.
  intros H. unfold rstrip. rewrite rev_app_distr.
  rewrite lstrip_app_solid by now apply last_solid_rev.
  now rewrite rev_app_distr, rev_involutive.
Qed.

Lemma rstrip_ws w : forallb isspace w = true -> rstrip w = [].
Proof.
  intros H. unfold rstrip. rewrite lstrip_ws; [reflexivity|].
  rewrite forallb_forall in *. intros c Hc. apply H. now apply in_rev.
Qed.

Lemma rstrip_solid_ws m w :
  last_solid m -> forallb isspace w = true -> rstrip (m ++ w) = m.
Proof.
  intros Hm Hw. rewrite rstrip_app_solid by exact Hm.
  now rewrite rstrip_ws, app_nil_r.
Qed.

Lemma last_solid_app u v : last_solid v -> last_solid (u ++ v).
Proof.
  intros (t & c & -> & H). exists (u ++ t), c. now rewrite app_assoc.
Qed.

Lemma head_solid_app u v : head_solid u -> head_solid (u ++ v).
Proof. intros (c & t & -> & H). now exists c, (t ++ v). Qed.

Lemma lstrip_length s : (length (lstrip s) <= length s)%nat.
Proof. apply span_snd_length. Qed.

Lemma rstrip_length s : (length (rstrip s) <= length s)%nat.
Proof.
  unfold rstrip. rewrite length_rev.
  etransitivity; [apply lstrip_length|]. now rewrite length_rev.
Qed.

Lemma lstrip_fixed s : lstrip s = s -> s <> [] -> head_solid s.
Proof.
  destruct s as [|c t]; [congruence|]. intros H _.
  destruct (isspace c) eqn:E; [|now exists c, t].
  exfalso. unfold lstrip in H. simpl in H. rewrite E in H.
  pose proof (span_snd_length isspace t) as L.
  destruct (span isspace t) as [a r]; simpl in *.
  subst r. simpl in L. lia.
Qed.

(** A non-empty string that [strip] leaves unchanged starts and ends
    with characters that are not white space. *)
Lemma strip_fixed s :
  strip s = s -> s <> [] -> head_solid s /\ last_solid s.
Proof.
  intros H Hne. unfold strip in H.
  assert (L : lstrip s = s).
  { pose proof (lstrip_length s) as L1.
    pose proof (rstrip_length (lstrip s)) as L2.
    rewrite H in L2.
    assert (E : length (lstrip s) = length s) by lia.
    clear - E. unfold lstrip in *. pose proof (span_app isspace s) as A.
    destruct (span isspace s) as [a r]; simpl in *.
    assert (E' : length r = length (a ++ r)) by now rewrite <- A.
    rewrite length_app in E'.
    destruct a; [now rewrite A|simpl in E'; lia]. }
  rewrite L in H. split; [now apply lstrip_fixed|].
  unfold rstrip in H.
  assert (R : lstrip (rev s) = rev s).
  { rewrite <- H at 2. now rewrite rev_involutive. }
  apply lstrip_fixed in R.
  - destruct R as (c & t & E & Hc). exists (rev t), c. split; [|exact Hc].
    rewrite <- (rev_involutive s), E. reflexivity.
  - intros E. apply Hne. rewrite <- (rev_involutive s), E. reflexivity.
Qed.

Lemma strip_solid s : head_solid s -> last_solid s -> strip s = s.
Proof.
  intros Hh Hl. unfold strip. rewrite lstrip_solid by exact Hh.
  rewrite <- (app_nil_r s) at 1. now apply rstrip_solid_ws.
Qed.

(** Trimming removes white space only. *)
Lemma In_strip c s : In c s -> isspace c = false -> In c (strip s).
Proof.
  intros H Hc. unfold strip, rstrip. apply in_rev.
  rewrite rev_involutive. apply span_snd_In; [|exact Hc].
  apply in_rev. rewrite rev_involutive. now apply span_snd_In.
Qed.

Lemma strip_incl c s : In c (strip s) -> In c s.
Proof.
  unfold strip, rstrip. intros H. apply in_rev in H.
  apply span_snd_incl in H. apply in_rev in H. now apply span_snd_incl in H.
Qed.

(** ** [startswith], [in] and [split] *)

Lemma startswith_app p s : startswith p (p ++ s) = true.
Proof. induction p as [|a p IH]; simpl; [reflexivity|]. now rewrite N.eqb_refl. Qed.

Lemma startswith_inv p s : startswith p s = true -> exists r, s = p ++ r.
Proof.
  revert s; induction p as [|a p IH]; intros s H; simpl in *.
  - now exists s.
  - destruct s as [|c s]; [discriminate|].
    apply andb_true_iff in H as [H1 H2]. apply N.eqb_eq in H1. subst c.
    destruct (IH _ H2) as [r ->]. now exists r.
Qed.

Lemma contains_startswith p s : startswith p s = true -> contains p s = true.
Proof. intros H. destruct s; simpl; now rewrite H. Qed.

(** [p in s] holds exactly when [p] is a substring of [s]. *)
Lemma contains_spec p s :
  contains p s = true <-> exists u v, s = u ++ p ++ v.
Proof.
  split.
  - induction s as [|c s IH]; simpl; intros H.
    + rewrite orb_false_r in H. apply startswith_inv in H as [r ->].
      now exists [], r.
    + apply orb_true_iff in H as [H|H].
      * apply startswith_inv in H as [r ->]. now exists [], r.
      * destruct (IH H) as (u & v & ->). now exists (c :: u), v.
  - intros (u & v & ->). induction u as [|c u IH]; simpl.
    + apply contains_startswith, startswith_app.
    + rewrite IH. apply orb_true_r.
Qed.

Lemma split_no_sep sep m s : ~ In sep s -> split sep (S m) s = [s].
Proof.
  induction s as [|c s IH]; simpl; [reflexivity|].
  intros H. destruct (N.eqb_spec c sep) as [->|_].
  - exfalso. apply H. now left.
  - rewrite IH by tauto. reflexivity.
Qed.

(** [split(sep, 1)] cuts at the first separator. *)
Lemma split_first sep u v :
  ~ In sep u -> split sep 1 (u ++ sep :: v) = [u; v].
Proof.
  induction u as [|c u IH]; simpl.
  - intros _. rewrite N.eqb_refl. now destruct v.
  - intros H. destruct (N.eqb_spec c sep) as [->|_].
    + exfalso. apply H. now left.
    + rewrite IH by tauto. reflexivity.
Qed.

Lemma first_occurrence (x : char) s :
  In x s -> exists u v, s = u ++ x :: v /\ ~ In x u.
Proof.
  induction s as [|c s IH]; simpl; [tauto|]. intros H.
  destruct (N.eq_dec c x) as [->|Hn].
  - exists [], s. split; [reflexivity|]. simpl. tauto.
  - destruct H as [H|H]; [contradiction|].
    destruct (IH H) as (u & v & -> & Hu).
    exists (c :: u), v. split; [reflexivity|]. simpl. tauto.
Qed.

Lemma split_cases sep s :
  (~ In sep s /\ split sep 1 s = [s])
  \/ (exists u v, s = u ++ sep :: v /\ ~ In sep u /\ split sep 1 s = [u; v]).
Proof.
  destruct (in_dec N.eq_dec sep s) as [H|H].
  - right. destruct (first_occurrence _ _ H) as (u & v & -> & Hu).
    exists u, v. repeat split; [exact Hu|]. now apply split_first.
  - left. split; [exact H|]. now apply split_no_sep.
Qed.

Lemma split_inv sep s p0 p1 :
  split sep 1 s = [p0; p1] -> s = p0 ++ sep :: p1 /\ ~ In sep p0.
Proof.
  intros H. destruct (split_cases sep s) as [[_ E]|(u & v & -> & Hu & E)];
    rewrite E in H; [discriminate|].
  injection H as <- <-. now split.
Qed.

(** A string with a single separator is cut in one way only. *)
Lemma cut_unique (sep : char) u v p0 p1 :
  u ++ sep :: v = p0 ++ sep :: p1 -> ~ In sep p0 -> ~ In sep p1 ->
  u = p0 /\ v = p1.
Proof.
  revert p0; induction u as [|c u IH]; intros [|d p0] E H0 H1; simpl in *.
  - injection E as ->. now split.
  - injection E as <- _. tauto.
  - injection E as -> E. exfalso. apply H1. rewrite <- E.
    apply in_or_app. right. now left.
  - injection E as -> E. destruct (IH p0 E) as [-> ->]; tauto.
Qed.

(** ** What [float] accepts holds no comma *)

Lemma clean_app u v : clean u -> clean v -> clean (u ++ v).
Proof. intros Hu Hv c H. apply in_app_or in H as [H|H]; auto. Qed.

Lemma clean_forallb p s :
  (forall c, p c = true -> refused c = false) -> forallb p s = true -> clean s.
Proof. intros Hp H c Hc. rewrite forallb_forall in H. auto. Qed.

Lemma consumes_refl s : consumes s s.
Proof. exists []. split; [reflexivity|]. intros c []. Qed.

Lemma consumes_trans s r t : consumes s r -> consumes r t -> consumes s t.
Proof.
  intros (p & -> & Hp) (q & -> & Hq). exists (p ++ q).
  split; [now rewrite app_assoc|]. now apply clean_app.
Qed.

Lemma consumes_cons c s : refused c = false -> consumes (c :: s) s.
Proof.
  intros H. exists [c]. split; [reflexivity|]. intros d [<-|[]]. exact H.
Qed.

Lemma consumes_span p s :
  (forall c, p c = true -> refused c = false) -> consumes s (snd (span p s)).
Proof.
  intros Hp. exists (fst (span p s)). split; [apply span_app|].
  apply (clean_forallb p); [exact Hp|apply span_fst_all].
Qed.

Lemma is_digit_clean c : is_digit c = true -> refused c = false.
Proof. unfold is_digit, refused. intros H. char_cases. Qed.

Lemma is_zero_clean c : is_zero c = true -> refused c = false.
Proof. unfold is_zero, refused. intros H. char_cases. Qed.

Lemma Py_ISSPACE_clean c : Py_ISSPACE c = true -> refused c = false.
Proof. unfold Py_ISSPACE, refused. intros H. char_cases. Qed.

Lemma consumes_skip_sign s : consumes s (skip_sign s).
Proof.
  destruct s as [|c s]; simpl; [apply consumes_refl|].
  case_if E; [|apply consumes_refl].
  apply consumes_cons. unfold refused. char_cases.
Qed.

Lemma consumes_exponent s : consumes s (strtod_exponent s).
Proof.
  destruct s as [|c s]; simpl; [apply consumes_refl|].
  case_if E; [|apply consumes_refl].
  pose proof (consumes_span is_zero (skip_sign s) is_zero_clean) as Hz.
  destruct (span is_zero (skip_sign s)) as [ezeros s2]; simpl in Hz.
  pose proof (consumes_span is_digit s2 is_digit_clean) as Hd.
  destruct (span is_digit s2) as [edigits s3]; simpl in Hd.
  destruct (nonempty ezeros || nonempty edigits); [|apply consumes_refl].
  eapply consumes_trans; [apply consumes_cons|].
  - unfold refused. char_cases.
  - eapply consumes_trans; [apply consumes_skip_sign|].
    eapply consumes_trans; eassumption.
Qed.

Lemma consumes_dg s r : Py_dg_strtod s = Some r -> consumes s r.
Proof.
  unfold Py_dg_strtod.
  pose proof (consumes_skip_sign s) as H0.
  pose proof (consumes_span is_zero (skip_sign s) is_zero_clean) as H1.
  destruct (span is_zero (skip_sign s)) as [zeros s1]; simpl in H1.
  pose proof (consumes_span is_digit s1 is_digit_clean) as H2.
  destruct (span is_digit s1) as [digits s2]; simpl in H2.
  assert (H012 : consumes s s2)
    by (eapply consumes_trans; [exact H0|]; eapply consumes_trans; eassumption).
  clear H0 H1 H2.
  assert (Hend : forall lz nd fl s3, consumes s s3 ->
    (if (nd =? 0) && negb lz then None
     else if (MAX_DIGITS <? nd) || (MAX_DIGITS <? fl) then None
     else Some (strtod_exponent s3)) = Some r -> consumes s r).
  { intros lz nd fl s3 Hs.
    destruct ((nd =? 0) && negb lz); [discriminate|].
    destruct ((MAX_DIGITS <? nd) || (MAX_DIGITS <? fl)); [discriminate|].
    intros [= <-]. eapply consumes_trans; [exact Hs|apply consumes_exponent]. }
  destruct s2 as [|c s2']; [now apply Hend|].
  destruct (c =? ord ".") eqn:Edot; [|now apply Hend].
  assert (Hdot : consumes s s2').
  { eapply consumes_trans; [exact H012|]. apply consumes_cons.
    unfold refused. char_cases. }
  destruct (len digits =? 0).
  - pose proof (consumes_span is_zero s2' is_zero_clean) as H3.
    destruct (span is_zero s2') as [fzeros s3]; simpl in H3.
    pose proof (consumes_span is_digit s3 is_digit_clean) as H4.
    destruct (span is_digit s3) as [fdigits s4]; simpl in H4.
    apply Hend. eapply consumes_trans; [exact Hdot|].
    eapply consumes_trans; eassumption.
  - pose proof (consumes_span is_digit s2' is_digit_clean) as H4.
    destruct (span is_digit s2') as [fdigits s4]; simpl in H4.
    apply Hend. eapply consumes_trans; eassumption.
Qed.

Lemma consumes_match s t r :
  lower_letters t -> case_insensitive_match s t = Some r -> consumes s r.
Proof.
  revert s; induction t as [|c t IH]; intros s Ht H; simpl in H.
  - injection H as <-; apply consumes_refl.
  - destruct s as [|a s]; [discriminate|].
    destruct (Py_TOLOWER a =? c) eqn:E; [|discriminate].
    eapply consumes_trans; [apply consumes_cons|apply IH].
    + assert (Hc : ord "a" <= c <= ord "z") by (apply Ht; now left).
      unfold refused, Py_TOLOWER in *. char_cases.
    + intros d Hd. apply Ht. now right.
    + exact H.
Qed.

Lemma lower_letters_py_inf : lower_letters (py "inf").
Proof. intros c H. simpl in H. ord_norm. intuition (subst; lia). Qed.
Lemma lower_letters_py_inity : lower_letters (py "inity").
Proof. intros c H. simpl in H. ord_norm. intuition (subst; lia). Qed.
Lemma lower_letters_py_nan : lower_letters (py "nan").
Proof. intros c H. simpl in H. ord_norm. intuition (subst; lia). Qed.

Lemma consumes_inf_or_nan s r : Py_parse_inf_or_nan s = Some r -> consumes s r.
Proof.
  unfold Py_parse_inf_or_nan. intros H.
  eapply consumes_trans; [apply consumes_skip_sign|].
  destruct (case_insensitive_match (skip_sign s) (py "inf")) as [s'|] eqn:E1.
  - apply consumes_match in E1; [|apply lower_letters_py_inf].
    destruct (case_insensitive_match s' (py "inity")) as [s''|] eqn:E2;
      injection H as <-; [|exact E1].
    apply consumes_match in E2; [|apply lower_letters_py_inity].
    eapply consumes_trans; eassumption.
  - apply consumes_match in H; [exact H|apply lower_letters_py_nan].
Qed.

Lemma consumes_strtod s r : PyOS_ascii_strtod s = Some r -> consumes s r.
Proof.
  unfold PyOS_ascii_strtod. destruct (Py_dg_strtod s) eqn:E.
  - intros [= <-]. now apply consumes_dg.
  - apply consumes_inf_or_nan.
Qed.

Lemma clean_rev s : clean (rev s) -> clean s.
Proof. intros H c Hc. apply H. now apply in_rev in Hc. Qed.

Lemma float_from_string_inner_clean t :
  float_from_string_inner t = true -> clean t.
Proof.
  unfold float_from_string_inner. intros H.
  rewrite (span_app Py_ISSPACE t). apply clean_app.
  { apply (clean_forallb Py_ISSPACE); [apply Py_ISSPACE_clean|apply span_fst_all]. }
  set (s1 := snd (span Py_ISSPACE t)) in *.
  destruct s1 as [|c s1'] eqn:E1; [discriminate|]. rewrite <- E1 in *.
  apply clean_rev. rewrite (span_app Py_ISSPACE (rev s1)). apply clean_app.
  { apply (clean_forallb Py_ISSPACE); [apply Py_ISSPACE_clean|apply span_fst_all]. }
  apply clean_rev.
  destruct (PyOS_ascii_strtod (rev (snd (span Py_ISSPACE (rev s1))))) as [[|]|] eqn:E;
    try discriminate.
  apply consumes_strtod in E. destruct E as (p & -> & Hp).
  now rewrite app_nil_r.
Qed.

Lemma drop_underscores_In prev s t c :
  drop_underscores prev s = Some t -> In c s -> c = ord "_" \/ In c t.
Proof.
  revert prev t; induction s as [|d s IH]; intros prev t H Hc; [destruct Hc|].
  simpl in H. destruct (N.eqb_spec d (ord "_")) as [->|Hd].
  - destruct (is_digit prev); [|discriminate].
    destruct Hc as [<-|Hc]; [now left|]. eapply IH; eassumption.
  - destruct ((prev =? ord "_") && negb (is_digit d)); [discriminate|].
    destruct (drop_underscores d s) as [t'|] eqn:E; [|discriminate].
    injection H as <-. destruct Hc as [<-|Hc]; [right; now left|].
    destruct (IH _ _ E Hc); [now left|right; now right].
Qed.

Lemma without_underscores_In s t c :
  without_underscores s = Some t -> In c s -> c = ord "_" \/ In c t.
Proof.
  unfold without_underscores.
  case_if E; [apply drop_underscores_In|].
  intros [= <-] H. now right.
Qed.

Lemma transform_loop_comma ucd s :
  In (ord ",") s -> exists c, In c (transform_loop ucd s) /\ refused c = true.
Proof.
  induction s as [|d s IH]; [intros []|]. intros H. simpl.
  destruct (N.ltb_spec d 127) as [Hd|Hd].
  - destruct H as [->|H]; [exists (ord ","); split; [now left|reflexivity]|].
    destruct (IH H) as (c & Hc & Hr). exists c. split; [now right|exact Hr].
  - destruct H as [->|H]; [exfalso; revert Hd; ord_norm; lia|].
    destruct (IH H) as (c & Hc & Hr).
    destruct (isspace d); [exists c; split; [now right|exact Hr]|].
    destruct (Py_UNICODE_TODECIMAL ucd d).
    + exists c. split; [now right|exact Hr].
    + exists (ord "?"). split; [now left|reflexivity].
Qed.

Lemma transform_comma ucd s :
  In (ord ",") s ->
  exists c, In c (TransformDecimalAndSpaceToASCII ucd s) /\ refused c = true.
Proof.
  unfold TransformDecimalAndSpaceToASCII. intros H.
  case_if E; [|now apply transform_loop_comma].
  exists (ord ","). split; [exact H|reflexivity].
Qed.

(** No string that [float] converts holds a comma. *)
Lemma float_ok_no_comma ucd s : float_ok ucd s = true -> ~ In (ord ",") s.
Proof.
  unfold float_ok. intros H Hc.
  destruct (transform_comma ucd s Hc) as (c & Hin & Hr).
  destruct (without_underscores _) as [t|] eqn:E; [|discriminate].
  apply float_from_string_inner_clean in H.
  destruct (without_underscores_In _ _ c E Hin) as [->|Ht].
  - discriminate Hr.
  - rewrite (H c Ht) in Hr. discriminate.
Qed.

Lemma float_ok_nonempty ucd s : float_ok ucd s = true -> s <> [].
Proof. intros H ->. discriminate H. Qed.

(** ** [upper] and the comparison with [NAN] *)

Lemma toupper_caseless ucd a c :
  ord "A" <= c <= ord "Z" -> Py_TOLOWER a = Py_TOLOWER c -> toupper ucd a = [c].
Proof.
  unfold toupper, Py_TOLOWER. intros Hc H. char_cases; f_equal; lia.
Qed.

(** A text equal to [NAN] up to case is upper-cased to [NAN]. *)
Lemma upper_nan ucd s :
  caseless_eqb s (py "NAN") = true -> upper ucd s = py "NAN".
Proof.
  intros H.
  destruct s as [|c1 [|c2 [|c3 [|c4 s]]]]; simpl in H;
    rewrite ?andb_false_r in H; try discriminate H.
  rewrite !andb_true_iff, !N.eqb_eq in H. destruct H as (H1 & H2 & H3 & _).
  unfold upper. simpl.
  rewrite (toupper_caseless ucd c1 (ord "N")), (toupper_caseless ucd c2 (ord "A")),
    (toupper_caseless ucd c3 (ord "N")); try assumption; try (ord_norm; lia).
  reflexivity.
Qed.

Lemma upper_In_comma ucd s : In (ord ",") s -> In (ord ",") (upper ucd s).
Proof.
  intros H. unfold upper. apply in_flat_map. exists (ord ","). split; [exact H|].
  now left.
Qed.

Lemma upper_nan_no_comma ucd s :
  str_eqb (upper ucd s) (py "NAN") = true -> ~ In (ord ",") s.
Proof.
  intros H Hc. apply str_eqb_eq in H. apply (upper_In_comma ucd) in Hc.
  rewrite H in Hc. vm_compute in Hc. intuition discriminate.
Qed.

(** ** The steps of [parse_lux_sqm] *)

Lemma all_space_no_comma w : all_space w = true -> ~ In (ord ",") w.
Proof.
  unfold all_space. rewrite forallb_forall. intros H Hc.
  apply H in Hc. discriminate Hc.
Qed.

Lemma strip_padded w m w' :
  all_space w = true -> all_space w' = true -> head_solid m -> last_solid m ->
  strip (w ++ m ++ w') = m.
Proof.
  intros Hw Hw' Hh Hl. unfold strip.
  rewrite lstrip_ws_app by exact Hw.
  rewrite lstrip_solid by now apply head_solid_app.
  now apply rstrip_solid_ws.
Qed.

Lemma strip_lpadded w m :
  all_space w = true -> head_solid m -> last_solid m -> strip (w ++ m) = m.
Proof.
  intros Hw Hh Hl. rewrite <- (app_nil_r m) at 1. now apply strip_padded.
Qed.

Lemma head_solid_LUX r : head_solid (py "LUX:" ++ r).
Proof. now exists (ord "L"), (py "UX:" ++ r). Qed.

Lemma head_solid_SQM r : head_solid (py "SQM:" ++ r).
Proof. now exists (ord "S"), (py "QM:" ++ r). Qed.

Lemma last_solid_marker m : last_solid (m ++ [ord ":"]).
Proof. now exists m, (ord ":"). Qed.

(** The text after the first colon of a part that starts with a marker. *)
Lemma item1_after_LUX r : item1 (split (ord ":") 1 (py "LUX:" ++ r)) = inr r.
Proof.
  change (py "LUX:" ++ r) with (py "LUX" ++ ord ":" :: r).
  rewrite split_first; [reflexivity|].
  intros H. vm_compute in H. intuition discriminate.
Qed.

Lemma item1_after_SQM r : item1 (split (ord ":") 1 (py "SQM:" ++ r)) = inr r.
Proof.
  change (py "SQM:" ++ r) with (py "SQM" ++ ord ":" :: r).
  rewrite split_first; [reflexivity|].
  intros H. vm_compute in H. intuition discriminate.
Qed.

(** The parser on a line whose first four checks pass. *)
Lemma parse_lux_sqm_fields ucd line part0 part1 f0 f1 :
  contains (py "LUX:") line = true -> contains (py "SQM:") line = true ->
  split (ord ",") 1 line = [part0; part1] ->
  strip part0 = py "LUX:" ++ f0 -> strip part1 = py "SQM:" ++ f1 ->
  parse_lux_sqm ucd line = validate ucd (strip f0) (strip f1).
Proof.
  intros C0 C1 Hs E0 E1. unfold parse_lux_sqm.
  rewrite C0, C1, Hs. cbn [negb orb]. rewrite E0, E1, !startswith_app.
  cbn [negb orb]. rewrite item1_after_LUX, item1_after_SQM. reflexivity.
Qed.

Lemma validate_ok ucd lux sqm :
  float_ok ucd lux = true ->
  float_ok ucd sqm = true \/ str_eqb (upper ucd sqm) (py "NAN") = true ->
  validate ucd lux sqm = inr (lux, sqm).
Proof.
  intros Hl Hs. unfold validate, float. rewrite Hl. simpl.
  destruct (str_eqb (upper ucd sqm) (py "NAN")); simpl; [reflexivity|].
  destruct Hs as [->|Hs]; [reflexivity|discriminate].
Qed.

Lemma validate_inv ucd lux sqm r :
  validate ucd lux sqm = r ->
  (r = inr (lux, sqm) /\ float_ok ucd lux = true
   /\ (float_ok ucd sqm = true \/ str_eqb (upper ucd sqm) (py "NAN") = true))
  \/ (r = inl (EValueError (CouldNotConvert lux)) /\ float_ok ucd lux = false)
  \/ (r = inl (EValueError (CouldNotConvert sqm)) /\ float_ok ucd lux = true
      /\ float_ok ucd sqm = false).
Proof.
  intros <-. unfold validate, float.
  destruct (float_ok ucd lux); simpl; [|right; left; now split].
  destruct (str_eqb (upper ucd sqm) (py "NAN")); simpl.
  - left. repeat split. now right.
  - destruct (float_ok ucd sqm); simpl.
    + left. repeat split. now left.
    + right; right. now repeat split.
Qed.

(** The parser, step by step: which check refuses the line, or the
    fields that reach the validation. *)
Lemma parse_lux_sqm_cases ucd line :
  (contains (py "LUX:") line && contains (py "SQM:") line = false
   /\ parse_lux_sqm ucd line = inl (EValueError (NoMarkers line)))
  \/ (contains (py "LUX:") line && contains (py "SQM:") line = true
      /\ ~ In (ord ",") line
      /\ parse_lux_sqm ucd line = inl (EValueError (WrongNumberOfFields 1 line)))
  \/ (exists part0 part1,
        contains (py "LUX:") line && contains (py "SQM:") line = true
        /\ split (ord ",") 1 line = [part0; part1]
        /\ startswith (py "LUX:") (strip part0)
           && startswith (py "SQM:") (strip part1) = false
        /\ parse_lux_sqm ucd line = inl (EValueError (BadPrefix line)))
  \/ (exists part0 part1 f0 f1,
        contains (py "LUX:") line && contains (py "SQM:") line = true
        /\ split (ord ",") 1 line = [part0; part1]
        /\ strip part0 = py "LUX:" ++ f0 /\ strip part1 = py "SQM:" ++ f1
        /\ parse_lux_sqm ucd line = validate ucd (strip f0) (strip f1)).
Proof.
  destruct (contains (py "LUX:") line) eqn:C0;
    [destruct (contains (py "SQM:") line) eqn:C1|].
  2,3: left; split; [reflexivity|]; unfold parse_lux_sqm; now rewrite C0, ?C1.
  right.
  destruct (split_cases (ord ",") line) as [[Hn E]|(u & v & Hl & Hu & E)].
  { left. repeat split; [exact Hn|]. unfold parse_lux_sqm.
    now rewrite C0, C1, E. }
  right.
  destruct (startswith (py "LUX:") (strip u)) eqn:S0;
    [destruct (startswith (py "SQM:") (strip v)) eqn:S1|].
  2,3: left; exists u, v; repeat split; [exact E|now rewrite S0, ?S1|];
       unfold parse_lux_sqm; now rewrite C0, C1, E, S0, ?S1.
  right. apply startswith_inv in S0 as [f0 E0]. apply startswith_inv in S1 as [f1 E1].
  exists u, v, f0, f1. repeat split; try assumption.
  now apply parse_lux_sqm_fields with (part0 := u) (part1 := v).
Qed.

(** The parser raises [ValueError] and nothing else. *)
Lemma parse_lux_sqm_raises ucd line e :
  parse_lux_sqm ucd line = inl e -> exists v, e = EValueError v.
Proof.
  intros H.
  destruct (parse_lux_sqm_cases ucd line)
    as [[_ E]|[(_ & _ & E)|[(p0 & p1 & _ & _ & _ & E)|(p0 & p1 & f0 & f1 & _ & _ & _ & _ & E)]]];
    rewrite E in H; try (injection H as <-; eauto; fail).
  destruct (validate_inv _ _ _ _ H) as [[Hr _]|[[Hr _]|[Hr _]]];
    try discriminate; injection Hr as ->; eauto.
Qed.

(** What a line that parses looks like. *)
Lemma parse_lux_sqm_inv ucd line lux sqm :
  parse_lux_sqm ucd line = inr (lux, sqm) ->
  exists part0 part1 f0 f1,
    split (ord ",") 1 line = [part0; part1]
    /\ strip part0 = py "LUX:" ++ f0 /\ strip part1 = py "SQM:" ++ f1
    /\ lux = strip f0 /\ sqm = strip f1
    /\ float_ok ucd lux = true
    /\ (float_ok ucd sqm = true \/ str_eqb (upper ucd sqm) (py "NAN") = true).
Proof.
  intros H.
  destruct (parse_lux_sqm_cases ucd line)
    as [[_ E]|[(_ & _ & E)|[(p0 & p1 & _ & _ & _ & E)|(p0 & p1 & f0 & f1 & _ & Hs & E0 & E1 & E)]]];
    rewrite E in H; try discriminate.
  destruct (validate_inv _ _ _ _ H) as [(Hr & Hl & Hq)|[[? _]|[? _]]];
    try discriminate.
  injection Hr as -> ->. exists p0, p1, f0, f1. now repeat split.
Qed.

(** A line that parses holds exactly one comma: none before the cut,
    none after. *)
Lemma parse_lux_sqm_one_comma ucd line lux sqm :
  parse_lux_sqm ucd line = inr (lux, sqm) ->
  exists part0 part1,
    line = part0 ++ ord "," :: part1
    /\ ~ In (ord ",") part0 /\ ~ In (ord ",") part1
    /\ startswith (py "LUX:") (strip part0) = true
    /\ startswith (py "SQM:") (strip part1) = true.
Proof.
  intros H. apply parse_lux_sqm_inv in H
    as (p0 & p1 & f0 & f1 & Hs & E0 & E1 & _ & -> & _ & Hq).
  apply split_inv in Hs as [-> H0]. exists p0, p1.
  repeat split; try assumption.
  - intros Hc. apply In_strip in Hc; [|reflexivity].
    rewrite E1 in Hc. apply in_app_or in Hc as [Hc|Hc].
    + vm_compute in Hc. intuition discriminate.
    + apply In_strip in Hc; [|reflexivity]. revert Hc.
      destruct Hq as [Hq|Hq];
        [now apply float_ok_no_comma in Hq|now apply upper_nan_no_comma in Hq].
  - rewrite E0. apply startswith_app.
  - rewrite E1. apply startswith_app.
Qed.

(** ** Lines that parse *)

Lemma caseless_char a c :
  ord "A" <= c <= ord "Z" -> Py_TOLOWER a = Py_TOLOWER c -> a = c \/ a = c + 32.
Proof. unfold Py_TOLOWER. intros Hc H. char_cases. Qed.

Lemma nan_text_strip s : nan_text s -> strip s = s.
Proof.
  unfold nan_text. intros H.
  destruct s as [|c1 [|c2 [|c3 [|c4 s]]]]; simpl in H;
    rewrite ?andb_false_r in H; try discriminate H.
  rewrite !andb_true_iff, !N.eqb_eq in H. destruct H as (H1 & _ & H3 & _).
  apply caseless_char in H1; [|ord_norm; lia].
  apply caseless_char in H3; [|ord_norm; lia].
  apply strip_solid.
  - exists c1, [c2; c3]. split; [reflexivity|]. now destruct H1 as [->| ->].
  - exists [c1; c2], c3. split; [reflexivity|]. now destruct H3 as [->| ->].
Qed.

Lemma padded_line_parses ucd w0 w1 w2 w3 w4 w5 lux sqm :
  all_space w0 = true -> all_space w1 = true -> all_space w2 = true ->
  all_space w3 = true -> all_space w4 = true -> all_space w5 = true ->
  numeric_text ucd lux ->
  strip sqm = sqm ->
  float_ok ucd sqm = true \/ str_eqb (upper ucd sqm) (py "NAN") = true ->
  parse_lux_sqm ucd
    ((w0 ++ py "LUX:" ++ w1 ++ lux ++ w2)
       ++ ord "," :: (w3 ++ py "SQM:" ++ w4 ++ sqm ++ w5))
  = inr (lux, sqm).
Proof.
  intros H0 H1 H2 H3 H4 H5 [Hl Tl] Ts Hs.
  assert (Nl : lux <> []) by now apply float_ok_nonempty in Hl.
  assert (Ns : sqm <> []).
  { destruct Hs as [Hs|Hs]; [now apply float_ok_nonempty in Hs|].
    intros ->. discriminate Hs. }
  destruct (strip_fixed lux Tl Nl) as [Ll Rl].
  destruct (strip_fixed sqm Ts Ns) as [Lq Rq].
  set (part0 := w0 ++ py "LUX:" ++ w1 ++ lux ++ w2).
  set (part1 := w3 ++ py "SQM:" ++ w4 ++ sqm ++ w5).
  assert (S0 : strip part0 = py "LUX:" ++ w1 ++ lux).
  { unfold part0.
    replace (py "LUX:" ++ w1 ++ lux ++ w2) with ((py "LUX:" ++ w1 ++ lux) ++ w2)
      by now rewrite <- !app_assoc.
    apply strip_padded; try assumption; [apply head_solid_LUX|].
    now apply last_solid_app, last_solid_app. }
  assert (S1 : strip part1 = py "SQM:" ++ w4 ++ sqm).
  { unfold part1.
    replace (py "SQM:" ++ w4 ++ sqm ++ w5) with ((py "SQM:" ++ w4 ++ sqm) ++ w5)
      by now rewrite <- !app_assoc.
    apply strip_padded; try assumption; [apply head_solid_SQM|].
    now apply last_solid_app, last_solid_app. }
  assert (C : ~ In (ord ",") part0).
  { unfold part0. intros Hc.
    repeat (apply in_app_or in Hc as [Hc|Hc]).
    - now apply all_space_no_comma in H0.
    - vm_compute in Hc. intuition discriminate.
    - now apply all_space_no_comma in H1.
    - now apply float_ok_no_comma in Hl.
    - now apply all_space_no_comma in H2. }
  rewrite (parse_lux_sqm_fields ucd _ part0 part1 (w1 ++ lux) (w4 ++ sqm)).
  - rewrite !strip_lpadded by assumption. now apply validate_ok.
  - apply contains_spec. exists w0, (w1 ++ lux ++ w2 ++ ord "," :: part1).
    unfold part0. now rewrite <- !app_assoc.
  - apply contains_spec. exists (part0 ++ ord "," :: w3), (w4 ++ sqm ++ w5).
    unfold part1. now rewrite <- !app_assoc.
  - now apply split_first.
  - exact S0.
  - exact S1.
Qed.

Lemma plain_line_parses ucd lux sqm :
  numeric_text ucd lux -> strip sqm = sqm ->
  float_ok ucd sqm = true \/ str_eqb (upper ucd sqm) (py "NAN") = true ->
  parse_lux_sqm ucd (py "LUX:" ++ lux ++ ord "," :: py "SQM:" ++ sqm)
  = inr (lux, sqm).
Proof.
  intros Hl Ts Hs.
  pose proof (padded_line_parses ucd [] [] [] [] [] [] lux sqm
                eq_refl eq_refl eq_refl eq_refl eq_refl eq_refl Hl Ts Hs) as H.
  simpl app in H. rewrite !app_nil_r in H. exact H.
Qed.

Lemma float_ok_nan_text ucd s : nan_text s -> float_ok ucd s = true.
Proof.
  unfold nan_text. intros H.
  destruct s as [|c1 [|c2 [|c3 [|c4 s]]]]; simpl in H;
    rewrite ?andb_false_r in H; try discriminate H.
  rewrite !andb_true_iff, !N.eqb_eq in H. destruct H as (H1 & H2 & H3 & _).
  apply caseless_char in H1; [|ord_norm; lia].
  apply caseless_char in H2; [|ord_norm; lia].
  apply caseless_char in H3; [|ord_norm; lia].
  destruct H1 as [->| ->], H2 as [->| ->], H3 as [->| ->]; reflexivity.
Qed.

(** ** The parts and candidates of a line *)

Lemma nth1_after_colon m r :
  ~ In (ord ":") m -> nth 1 (split (ord ":") 1 (m ++ ord ":" :: r)) [] = r.
Proof. intros H. now rewrite split_first. Qed.

(** The pair a successful parse returns is the pair of candidates. *)
Lemma parse_lux_sqm_candidates ucd line lux sqm :
  parse_lux_sqm ucd line = inr (lux, sqm) ->
  lux = lux_candidate line /\ sqm = sqm_candidate line.
Proof.
  intros H. apply parse_lux_sqm_inv in H
    as (p0 & p1 & f0 & f1 & Hs & E0 & E1 & -> & -> & _).
  unfold lux_candidate, sqm_candidate, lux_part, sqm_part. rewrite Hs. simpl nth.
  rewrite E0, E1.
  change (py "LUX:" ++ f0) with (py "LUX" ++ ord ":" :: f0).
  change (py "SQM:" ++ f1) with (py "SQM" ++ ord ":" :: f1).
  rewrite !nth1_after_colon; [now split| |];
    intros H; vm_compute in H; intuition discriminate.
Qed.

(** ** The parser: the claims *)

(** C1.  For every line of the exact form [LUX:<lux>,SQM:<sqm>] in which
    both fields are numeric texts (strings [float] converts, with no
    white space around them), [parse_lux_sqm] returns, and returns the two
    texts as they stand in the line.  At [LUX:123.4,SQM:5.6] this gives
    [("123.4", "5.6")]. *)
Theorem C1_numeric_line_parses ucd lux sqm :
  numeric_text ucd lux -> numeric_text ucd sqm ->
  parse_lux_sqm ucd (py "LUX:" ++ lux ++ ord "," :: py "SQM:" ++ sqm)
  = inr (lux, sqm).
Proof.
  intros Hl [Hs Ts]. apply plain_line_parses; [exact Hl|exact Ts|now left].
Qed.

Lemma C1_numeric_line_parses_witness :
  numeric_text ucd_basic (py "123.4") /\ numeric_text ucd_basic (py "5.6")
  /\ parse_lux_sqm ucd_basic (py "LUX:123.4,SQM:5.6") = inr (py "123.4", py "5.6").
Proof.
  assert (Hl : numeric_text ucd_basic (py "123.4")) by (split; reflexivity).
  assert (Hs : numeric_text ucd_basic (py "5.6")) by (split; reflexivity).
  split; [exact Hl|split; [exact Hs|]].
  exact (C1_numeric_line_parses ucd_basic (py "123.4") (py "5.6") Hl Hs).
Defined.

(** C2, as the code has it.  For every line whose lux candidate is a text
    [float] does not convert, [parse_lux_sqm] raises [ValueError]: one of
    the three earlier checks refuses the line, or the conversion of the
    lux candidate does.  Such a candidate is never the text [nan] in any
    case: [float] converts it, so the lux field has the same NaN
    allowance as the sqm field.  At [LUX:abc,SQM:1.0] the conversion of
    [abc] is what fails. *)
Theorem C2_lux_not_numeric_fails ucd line :
  float_ok ucd (lux_candidate line) = false ->
  (parse_lux_sqm ucd line = inl (EValueError (NoMarkers line))
   \/ parse_lux_sqm ucd line = inl (EValueError (WrongNumberOfFields 1 line))
   \/ parse_lux_sqm ucd line = inl (EValueError (BadPrefix line))
   \/ parse_lux_sqm ucd line = inl (EValueError (CouldNotConvert (lux_candidate line))))
  /\ ~ nan_text (lux_candidate line).
Proof.
  intros H. split.
  - destruct (parse_lux_sqm_cases ucd line)
      as [[_ E]|[(_ & _ & E)|[(p0 & p1 & _ & _ & _ & E)|(p0 & p1 & f0 & f1 & _ & Hs & E0 & E1 & E)]]];
      [now left|right; now left|right; right; now left|].
    right; right; right. rewrite E.
    assert (L : lux_candidate line = strip f0).
    { unfold lux_candidate, lux_part. rewrite Hs. simpl nth. rewrite E0.
      change (py "LUX:" ++ f0) with (py "LUX" ++ ord ":" :: f0).
      rewrite nth1_after_colon; [reflexivity|].
      intros Hc; vm_compute in Hc; intuition discriminate. }
    rewrite L in *. unfold validate, float. now rewrite H.
  - intros Hn. apply (float_ok_nan_text ucd) in Hn. congruence.
Qed.

Lemma C2_lux_not_numeric_fails_witness :
  float_ok ucd_basic (lux_candidate (py "LUX:abc,SQM:1.0")) = false
  /\ parse_lux_sqm ucd_basic (py "LUX:abc,SQM:1.0")
     = inl (EValueError (CouldNotConvert (py "abc"))).
Proof.
  split; [reflexivity|].
  destruct (C2_lux_not_numeric_fails ucd_basic (py "LUX:abc,SQM:1.0") eq_refl)
    as [[H|[H|[H|H]]] _]; try discriminate H.
  exact H.
Defined.

(** C2, as stated, fails: the lux candidate of [LUX:NaN,SQM:1.0] is
    [NaN], and the line parses, whatever the Unicode database. *)
Lemma C2_lux_nan_is_accepted :
  lux_candidate (py "LUX:NaN,SQM:1.0") = py "NaN"
  /\ nan_text (py "NaN")
  /\ (forall ucd, parse_lux_sqm ucd (py "LUX:NaN,SQM:1.0") = inr (py "NaN", py "1.0")).
Proof.
  split; [reflexivity|split; [reflexivity|]].
  intros ucd. vm_compute. reflexivity.
Qed.

(** C3.  For every line [LUX:<lux>,SQM:<sqm>], with or without white
    space around the fields and the values, whose lux value is a numeric
    text and whose sqm value is [NAN] in any mix of upper and lower case,
    [parse_lux_sqm] returns, and returns the sqm text as it stands.  At
    [LUX:0.01,SQM:NaN] this gives [("0.01", "NaN")]; [nan] and [NAN] are
    accepted the same way. *)
Theorem C3_sqm_nan_accepted ucd w0 w1 w2 w3 w4 w5 lux sqm :
  all_space w0 = true -> all_space w1 = true -> all_space w2 = true ->
  all_space w3 = true -> all_space w4 = true -> all_space w5 = true ->
  numeric_text ucd lux -> nan_text sqm ->
  parse_lux_sqm ucd
    ((w0 ++ py "LUX:" ++ w1 ++ lux ++ w2)
       ++ ord "," :: (w3 ++ py "SQM:" ++ w4 ++ sqm ++ w5))
  = inr (lux, sqm).
Proof.
  intros H0 H1 H2 H3 H4 H5 Hl Hn.
  apply padded_line_parses; try assumption.
  - now apply nan_text_strip.
  - right. apply str_eqb_eq. now apply upper_nan.
Qed.

Lemma C3_sqm_nan_accepted_witness :
  numeric_text ucd_basic (py "0.01")
  /\ nan_text (py "NaN") /\ nan_text (py "nan") /\ nan_text (py "NAN")
  /\ parse_lux_sqm ucd_basic (py "LUX:0.01,SQM:NaN") = inr (py "0.01", py "NaN")
  /\ parse_lux_sqm ucd_basic (py "LUX:0.01,SQM:nan") = inr (py "0.01", py "nan")
  /\ parse_lux_sqm ucd_basic (py "LUX:0.01,SQM:NAN") = inr (py "0.01", py "NAN").
Proof.
  assert (Hl : numeric_text ucd_basic (py "0.01")) by (split; reflexivity).
  split; [exact Hl|]. do 3 (split; [reflexivity|]).
  split; [|split].
  - exact (C3_sqm_nan_accepted ucd_basic [] [] [] [] [] [] (py "0.01") (py "NaN")
             eq_refl eq_refl eq_refl eq_refl eq_refl eq_refl Hl eq_refl).
  - exact (C3_sqm_nan_accepted ucd_basic [] [] [] [] [] [] (py "0.01") (py "nan")
             eq_refl eq_refl eq_refl eq_refl eq_refl eq_refl Hl eq_refl).
  - exact (C3_sqm_nan_accepted ucd_basic [] [] [] [] [] [] (py "0.01") (py "NAN")
             eq_refl eq_refl eq_refl eq_refl eq_refl eq_refl Hl eq_refl).
Defined.

(** C4.  The order of the fields is fixed.  For every line whose first
    trimmed part does not start with [LUX:], or whose second trimmed part
    does not start with [SQM:], [parse_lux_sqm] raises [ValueError]
    before it looks at any value; when both markers occur in the line and
    the line has a comma, the error is the one of the prefix check.  At
    [SQM:5.6,LUX:123.4], where both markers are present, it is that one. *)
Theorem C4_field_order_is_fixed ucd line :
  startswith (py "LUX:") (lux_part line) = false
  \/ startswith (py "SQM:") (sqm_part line) = false ->
  (parse_lux_sqm ucd line = inl (EValueError (NoMarkers line))
   \/ parse_lux_sqm ucd line = inl (EValueError (WrongNumberOfFields 1 line))
   \/ parse_lux_sqm ucd line = inl (EValueError (BadPrefix line)))
  /\ (contains (py "LUX:") line = true -> contains (py "SQM:") line = true ->
      In (ord ",") line ->
      parse_lux_sqm ucd line = inl (EValueError (BadPrefix line))).
Proof.
  intros H.
  destruct (parse_lux_sqm_cases ucd line)
    as [[C E]|[(C & Hn & E)|[(p0 & p1 & C & Hs & _ & E)|(p0 & p1 & f0 & f1 & _ & Hs & E0 & E1 & _)]]].
  - split; [now left|]. intros C0 C1. now rewrite C0, C1 in C.
  - split; [right; now left|]. intros _ _ Hc. contradiction.
  - split; [right; right; exact E|]. intros _ _ _. exact E.
  - exfalso. unfold lux_part, sqm_part in H. rewrite Hs in H. simpl nth in H.
    rewrite E0, E1, !startswith_app in H. now destruct H.
Qed.

Lemma C4_field_order_is_fixed_witness :
  (startswith (py "LUX:") (lux_part (py "SQM:5.6,LUX:123.4")) = false
   \/ startswith (py "SQM:") (sqm_part (py "SQM:5.6,LUX:123.4")) = false)
  /\ parse_lux_sqm ucd_basic (py "SQM:5.6,LUX:123.4")
     = inl (EValueError (BadPrefix (py "SQM:5.6,LUX:123.4"))).
Proof.
  assert (H : startswith (py "LUX:") (lux_part (py "SQM:5.6,LUX:123.4")) = false
              \/ startswith (py "SQM:") (sqm_part (py "SQM:5.6,LUX:123.4")) = false)
    by (left; reflexivity).
  split; [exact H|].
  apply (proj2 (C4_field_order_is_fixed ucd_basic (py "SQM:5.6,LUX:123.4") H));
    [reflexivity|reflexivity|].
  vm_compute. tauto.
Defined.

(** C5.  The line is cut at its first comma, and a cut that does not give
    two parts is refused.  For every line that holds both markers and no
    comma, the cut gives the line alone and [parse_lux_sqm] raises the
    [ValueError] of the field count, with a count of 1.
    [LUX:1.0;SQM:1.0] is such a line. *)
Theorem C5_no_comma_wrong_field_count ucd line :
  contains (py "LUX:") line = true -> contains (py "SQM:") line = true ->
  ~ In (ord ",") line ->
  split (ord ",") 1 line = [line]
  /\ parse_lux_sqm ucd line = inl (EValueError (WrongNumberOfFields 1 line)).
Proof.
  intros C0 C1 Hn.
  assert (E : split (ord ",") 1 line = [line]) by now apply split_no_sep.
  split; [exact E|]. unfold parse_lux_sqm. now rewrite C0, C1, E.
Qed.

Lemma C5_no_comma_wrong_field_count_witness :
  contains (py "LUX:") (py "LUX:1.0;SQM:1.0") = true
  /\ contains (py "SQM:") (py "LUX:1.0;SQM:1.0") = true
  /\ ~ In (ord ",") (py "LUX:1.0;SQM:1.0")
  /\ parse_lux_sqm ucd_basic (py "LUX:1.0;SQM:1.0")
     = inl (EValueError (WrongNumberOfFields 1 (py "LUX:1.0;SQM:1.0"))).
Proof.
  assert (Hn : ~ In (ord ",") (py "LUX:1.0;SQM:1.0"))
    by (intros H; vm_compute in H; intuition discriminate).
  split; [reflexivity|split; [reflexivity|split; [exact Hn|]]].
  exact (proj2 (C5_no_comma_wrong_field_count ucd_basic (py "LUX:1.0;SQM:1.0")
                  eq_refl eq_refl Hn)).
Defined.

(** C6.  White space is tolerated.  For every line made of [LUX:], a
    numeric text, a comma, [SQM:] and a numeric text, with any white
    space before and after each field and each value, [parse_lux_sqm]
    returns the two numeric texts without that white space.
    [LUX: 1.0 , SQM: 2.0] gives [("1.0", "2.0")]. *)
Theorem C6_whitespace_is_trimmed ucd w0 w1 w2 w3 w4 w5 lux sqm :
  all_space w0 = true -> all_space w1 = true -> all_space w2 = true ->
  all_space w3 = true -> all_space w4 = true -> all_space w5 = true ->
  numeric_text ucd lux -> numeric_text ucd sqm ->
  parse_lux_sqm ucd
    ((w0 ++ py "LUX:" ++ w1 ++ lux ++ w2)
       ++ ord "," :: (w3 ++ py "SQM:" ++ w4 ++ sqm ++ w5))
  = inr (lux, sqm).
Proof.
  intros H0 H1 H2 H3 H4 H5 Hl [Hs Ts].
  apply padded_line_parses; try assumption. now left.
Qed.

Lemma C6_whitespace_is_trimmed_witness :
  all_space (py " ") = true /\ all_space [] = true
  /\ numeric_text ucd_basic (py "1.0") /\ numeric_text ucd_basic (py "2.0")
  /\ parse_lux_sqm ucd_basic (py "LUX: 1.0 , SQM: 2.0") = inr (py "1.0", py "2.0").
Proof.
  assert (Hl : numeric_text ucd_basic (py "1.0")) by (split; reflexivity).
  assert (Hs : numeric_text ucd_basic (py "2.0")) by (split; reflexivity).
  split; [reflexivity|split; [reflexivity|split; [exact Hl|split; [exact Hs|]]]].
  exact (C6_whitespace_is_trimmed ucd_basic
           [] (py " ") (py " ") (py " ") (py " ") [] (py "1.0") (py "2.0")
           eq_refl eq_refl eq_refl eq_refl eq_refl eq_refl Hl Hs).
Defined.

(** C7.  For every line in which [LUX:] does not occur, or [SQM:] does
    not occur ([contains] is the substring test, see [contains_spec]),
    [parse_lux_sqm] raises the [ValueError] of the missing markers.  The
    empty line is one. *)
Theorem C7_missing_marker_fails ucd line :
  contains (py "LUX:") line = false \/ contains (py "SQM:") line = false ->
  parse_lux_sqm ucd line = inl (EValueError (NoMarkers line)).
Proof.
  intros H. unfold parse_lux_sqm.
  destruct H as [-> | ->]; [reflexivity|].
  now rewrite orb_true_r.
Qed.

Lemma C7_missing_marker_fails_witness :
  (contains (py "LUX:") [] = false \/ contains (py "SQM:") [] = false)
  /\ parse_lux_sqm ucd_basic (py "") = inl (EValueError (NoMarkers (py ""))).
Proof.
  split; [left; reflexivity|].
  exact (C7_missing_marker_fails ucd_basic [] (or_introl eq_refl)).
Defined.

(** ** The markers are matched with their case *)

Lemma startswith_same_length p m r :
  startswith p (m ++ r) = true -> length p = length m -> m = p.
Proof.
  revert m; induction p as [|a p IH]; intros [|c m] H L; simpl in *;
    try discriminate; [reflexivity|].
  apply andb_true_iff in H as [H1 H2]. apply N.eqb_eq in H1. subst c.
  f_equal. apply IH; [exact H2|lia].
Qed.

Lemma colon_caseless c : Py_TOLOWER c = Py_TOLOWER (ord ":") -> c = ord ":".
Proof. unfold Py_TOLOWER. intros H. char_cases. Qed.

Lemma isspace_letter c : 0x41 <= c <= 0x7A -> isspace c = false.
Proof.
  intros H. unfold isspace.
  repeat (apply orb_false_iff; split);
    try (apply andb_false_iff;
         ((left; apply N.leb_gt; lia) || (right; apply N.leb_gt; lia)));
    apply N.eqb_neq; lia.
Qed.

(** A marker written in any case: four characters, none of them white
    space or a comma. *)
Lemma caseless_marker m c1 c2 c3 :
  ord "A" <= c1 <= ord "Z" -> ord "A" <= c2 <= ord "Z" -> ord "A" <= c3 <= ord "Z" ->
  caseless_eqb m [c1; c2; c3; ord ":"] = true ->
  length m = 4%nat /\ head_solid m /\ last_solid m /\ ~ In (ord ",") m.
Proof.
  intros R1 R2 R3 H.
  destruct m as [|a1 [|a2 [|a3 [|a4 [|a5 m]]]]]; simpl in H;
    rewrite ?andb_false_r in H; try discriminate H.
  rewrite !andb_true_iff, !N.eqb_eq in H. destruct H as (H1 & H2 & H3 & H4 & _).
  apply caseless_char in H1; [|exact R1].
  apply caseless_char in H2; [|exact R2].
  apply caseless_char in H3; [|exact R3].
  apply colon_caseless in H4. subst a4.
  split; [reflexivity|]. split; [|split].
  - exists a1, [a2; a3; ord ":"]. split; [reflexivity|].
    apply isspace_letter. revert R1; ord_norm; intros R1. lia.
  - now exists [a1; a2; a3], (ord ":").
  - revert R1 R2 R3; ord_norm; intros R1 R2 R3. simpl.
    intros [E|[E|[E|[E|[]]]]]; try discriminate E; lia.
Qed.

Lemma strip_marker_prefix w m x :
  all_space w = true -> head_solid m -> last_solid m ->
  strip (w ++ m ++ x) = m ++ rstrip x.
Proof.
  intros Hw Hh Hl. unfold strip. rewrite lstrip_ws_app by exact Hw.
  rewrite lstrip_solid by now apply head_solid_app.
  now apply rstrip_app_solid.
Qed.

(** C10.  The markers are matched with their case.  For every line made
    of a marker, a value, a comma, a marker and a value, with or without
    white space before the markers, in which the markers are [LUX:] and
    [SQM:] up to case and at least one of them is not in upper case,
    [parse_lux_sqm] raises [ValueError].  [lux:1.0,sqm:2.0] is refused
    (for its missing markers), while the sqm value [nan] is accepted in
    any case (C3). *)
Theorem C10_markers_are_case_sensitive ucd w0 m1 a w3 m2 b0 :
  all_space w0 = true -> all_space w3 = true ->
  caseless_eqb m1 (py "LUX:") = true -> caseless_eqb m2 (py "SQM:") = true ->
  m1 <> py "LUX:" \/ m2 <> py "SQM:" ->
  exists v,
    parse_lux_sqm ucd ((w0 ++ m1 ++ a) ++ ord "," :: (w3 ++ m2 ++ b0))
    = inl (EValueError v).
Proof.
  intros H0 H3 M1 M2 Hne.
  destruct (parse_lux_sqm ucd ((w0 ++ m1 ++ a) ++ ord "," :: (w3 ++ m2 ++ b0)))
    as [e|[lux sqm]] eqn:P.
  { destruct (parse_lux_sqm_raises _ _ _ P) as [v ->]. now exists v. }
  exfalso.
  apply caseless_marker in M1 as (L1 & Hh1 & Hl1 & _); [|ord_norm; lia..].
  apply caseless_marker in M2 as (L2 & Hh2 & Hl2 & _); [|ord_norm; lia..].
  apply parse_lux_sqm_one_comma in P as (p0 & p1 & E & N0 & N1 & S0 & S1).
  apply cut_unique in E as [<- <-]; [|exact N0|exact N1].
  rewrite strip_marker_prefix in S0, S1 by assumption.
  apply startswith_same_length in S0; [|now rewrite L1].
  apply startswith_same_length in S1; [|now rewrite L2].
  tauto.
Qed.

Lemma C10_markers_are_case_sensitive_witness :
  caseless_eqb (py "lux:") (py "LUX:") = true
  /\ caseless_eqb (py "sqm:") (py "SQM:") = true
  /\ py "lux:" <> py "LUX:"
  /\ exists v, parse_lux_sqm ucd_basic (py "lux:1.0,sqm:2.0") = inl (EValueError v).
Proof.
  assert (Hne : py "lux:" <> py "LUX:") by (intros H; vm_compute in H; discriminate H).
  split; [reflexivity|split; [reflexivity|split; [exact Hne|]]].
  exact (C10_markers_are_case_sensitive ucd_basic
           [] (py "lux:") (py "1.0") [] (py "sqm:") (py "2.0")
           eq_refl eq_refl eq_refl eq_refl (or_introl Hne)).
Defined.

(** ** [get_reading]: the claims *)

(** C8.  When no connection is open ([ser] is [None], or its port is
    closed), [get_reading] returns after showing the warning
    [Not connected]: it makes no call on the serial object (nothing is
    written, nothing is read), and the three reading variables keep their
    values. *)
Theorem C8_not_connected_no_io ucd dev g :
  not_connected g = true ->
  fst (get_reading ucd dev g) = inr tt
  /\ wire (snd (get_reading ucd dev g)) = wire g
  /\ raw_var (snd (get_reading ucd dev g)) = raw_var g
  /\ lux_var (snd (get_reading ucd dev g)) = lux_var g
  /\ sqm_var (snd (get_reading ucd dev g)) = sqm_var g
  /\ ser (snd (get_reading ucd dev g)) = ser g
  /\ dialogs (snd (get_reading ucd dev g))
     = dialogs g ++ [showwarning (py "Not connected")
                       (py "Please connect to a serial port first.")].
Proof.
  intros H. unfold get_reading. rewrite H. simpl. now repeat split.
Qed.

(** C9.  When the connection is open, no call on the serial object
    raises, and the line read is empty once decoded and trimmed (as it is
    when [readline] times out and returns no byte), [get_reading] makes
    the five calls of a request, shows the warning [Timeout], and sets the
    raw variable to [<no data>] and the lux and sqm variables to [--]. *)
Theorem C9_timeout_resets_fields ucd dev g :
  not_connected g = false ->
  (forall c, fault dev c = None) ->
  strip (decode (reply dev)) = [] ->
  get_reading ucd dev g
  = (inr tt,
     {| ser := ser g;
        raw_var := py "<no data>";
        lux_var := py "--";
        sqm_var := py "--";
        dialogs := dialogs g ++ [showwarning (py "Timeout")
                                   (py "No data received (timeout).")];
        wire := wire g ++ request_calls |}).
Proof.
  intros Hc Hf Hl. unfold get_reading. rewrite Hc.
  unfold try_except, mbind, ser_readline, mbind, ser_call, ret.
  rewrite !Hf. cbn [ser raw_var lux_var sqm_var dialogs wire].
  rewrite Hl. cbn.
  unfold request_calls. do 2 f_equal.
  rewrite <- !app_assoc. reflexivity.
Qed.

Lemma C8_not_connected_no_io_witness :
  not_connected gui_start = true
  /\ get_reading ucd_basic device_silent gui_start
     = (inr tt,
        {| ser := None; raw_var := []; lux_var := py "--"; sqm_var := py "--";
           dialogs := [showwarning (py "Not connected")
                         (py "Please connect to a serial port first.")];
           wire := [] |}).
Proof.
  split; [reflexivity|].
  pose proof (C8_not_connected_no_io ucd_basic device_silent gui_start eq_refl) as H.
  destruct (get_reading ucd_basic device_silent gui_start) as [r g'].
  simpl in H. destruct H as (-> & Hw & Hr & Hl & Hq & Hs & Hd).
  destruct g'; simpl in *. now subst.
Defined.

Lemma C9_timeout_resets_fields_witness :
  not_connected (gui_connected (py "COM3")) = false
  /\ strip (decode (reply device_silent)) = []
  /\ get_reading ucd_basic device_silent (gui_connected (py "COM3"))
     = (inr tt,
        {| ser := Some {| port := py "COM3"; is_open := true |};
           raw_var := py "<no data>"; lux_var := py "--"; sqm_var := py "--";
           dialogs := [showwarning (py "Timeout") (py "No data received (timeout).")];
           wire := request_calls |}).
Proof.
  split; [reflexivity|split; [reflexivity|]].
  exact (C9_timeout_resets_fields ucd_basic device_silent (gui_connected (py "COM3"))
           eq_refl (fun _ => eq_refl) eq_refl).
Defined.

(** The callback always returns: the parser raises [ValueError] only,
    which is handled, as is [SerialException]. *)
Lemma get_reading_returns ucd dev g : fst (get_reading ucd dev g) = inr tt.
Proof.
  unfold get_reading. destruct (not_connected g); [reflexivity|].
  unfold try_except, mbind, ser_readline, mbind, ser_call, ret.
  destruct (fault dev reset_input_buffer); [reflexivity|].
  destruct (fault dev reset_output_buffer); [reflexivity|].
  destruct (fault dev (write _)); [reflexivity|].
  destruct (fault dev flush); [reflexivity|].
  destruct (fault dev readline); [reflexivity|].
  destruct (negb (nonempty (strip (decode (reply dev))))); [reflexivity|].
  cbn [raw_var_set].
  destruct (parse_lux_sqm ucd (strip (decode (reply dev)))) as [e|[l q]] eqn:P;
    [|reflexivity].
  destruct (parse_lux_sqm_raises _ _ _ P) as [v ->]. reflexivity.
Qed.

(** * Further properties of the parser *)

(** ** What [strip] returns *)

Lemma span_snd_head p s c t : snd (span p s) = c :: t -> p c = false.
Proof.
  induction s as [|d s IH]; simpl; [discriminate|].
  destruct (p d) eqn:E.
  - destruct (span p s); simpl in *. exact IH.
  - simpl. intros [= <- _]. exact E.
Qed.

Lemma lstrip_shape s : lstrip s = [] \/ head_solid (lstrip s).
Proof.
  destruct (lstrip s) as [|c t] eqn:E; [now left|right].
  exists c, t. split; [reflexivity|]. now apply span_snd_head in E.
Qed.

Lemma strip_shape s : strip s = [] \/ (head_solid (strip s) /\ last_solid (strip s)).
Proof.
  unfold strip. destruct (lstrip_shape s) as [->|(c & t & -> & Hc)]; [now left|].
  right. split.
  - change (c :: t) with ([c] ++ t). rewrite rstrip_app_solid by now exists [], c.
    now exists c, (rstrip t).
  - unfold rstrip. destruct (lstrip_shape (rev (c :: t))) as [E|(d & u & E & Hd)].
    + exfalso. simpl in E.
      rewrite lstrip_app_solid in E by now exists c, [].
      now destruct (lstrip (rev t)).
    + rewrite E. simpl. now exists (rev u), d.
Qed.

Lemma strip_idempotent s : strip (strip s) = strip s.
Proof.
  destruct (strip_shape s) as [->|[Hh Hl]]; [reflexivity|now apply strip_solid].
Qed.

Lemma all_space_app u v :
  all_space u = true -> all_space v = true -> all_space (u ++ v) = true.
Proof. unfold all_space. intros Hu Hv. now rewrite forallb_app, Hu, Hv. Qed.

Lemma all_space_rev u : all_space u = true -> all_space (rev u) = true.
Proof.
  unfold all_space. rewrite !forallb_forall. intros H c Hc.
  apply H. now apply in_rev.
Qed.

(** A string is its trimmed text between two runs of white space. *)
Lemma strip_decompose s :
  exists w w', s = w ++ strip s ++ w' /\ all_space w = true /\ all_space w' = true.
Proof.
  exists (fst (span isspace s)), (rev (fst (span isspace (rev (lstrip s))))).
  split; [|split].
  - rewrite (span_app isspace s) at 1. f_equal.
    unfold strip, rstrip, lstrip at 2.
    rewrite <- rev_app_distr, <- span_app. now rewrite rev_involutive.
  - apply span_fst_all.
  - apply all_space_rev, span_fst_all.
Qed.

(** ** The lines that parse *)

(** A line that parses is made of the two markers and the two values
    returned, with white space only around them. *)
Lemma parse_lux_sqm_padded ucd line lux sqm :
  parse_lux_sqm ucd line = inr (lux, sqm) ->
  exists w0 w1 w2 w3 w4 w5,
    all_space w0 = true /\ all_space w1 = true /\ all_space w2 = true
    /\ all_space w3 = true /\ all_space w4 = true /\ all_space w5 = true
    /\ numeric_text ucd lux /\ strip sqm = sqm
    /\ (float_ok ucd sqm = true \/ str_eqb (upper ucd sqm) (py "NAN") = true)
    /\ line = (w0 ++ py "LUX:" ++ w1 ++ lux ++ w2)
                ++ ord "," :: (w3 ++ py "SQM:" ++ w4 ++ sqm ++ w5).
Proof.
  intros H. apply parse_lux_sqm_inv in H
    as (p0 & p1 & f0 & f1 & Hs & E0 & E1 & -> & -> & Hl & Hq).
  apply split_inv in Hs as [-> _].
  destruct (strip_decompose p0) as (w0 & w2' & D0 & A0 & A2').
  destruct (strip_decompose p1) as (w3 & w5' & D1 & A3 & A5').
  destruct (strip_decompose f0) as (w1 & w2 & F0 & A1 & A2).
  destruct (strip_decompose f1) as (w4 & w5 & F1 & A4 & A5).
  exists w0, w1, (w2 ++ w2'), w3, w4, (w5 ++ w5').
  repeat split; try assumption; try (now apply all_space_app);
    try apply strip_idempotent.
  rewrite D0 at 1. rewrite D1 at 1. rewrite E0, E1.
  rewrite F0 at 1. rewrite F1 at 1.
  now rewrite <- !app_assoc.
Qed.

(** X1.  [parse_lux_sqm] returns a pair or raises [ValueError]: the two
    subscripts [[1]] it takes after the prefix check never raise
    [IndexError]. *)
Theorem X1_parse_raises_only_ValueError ucd line :
  (exists lux sqm, parse_lux_sqm ucd line = inr (lux, sqm))
  \/ (exists v, parse_lux_sqm ucd line = inl (EValueError v)).
Proof.
  destruct (parse_lux_sqm ucd line) as [e|[lux sqm]] eqn:P.
  - right. destruct (parse_lux_sqm_raises _ _ _ P) as [v ->]. now exists v.
  - left. now exists lux, sqm.
Qed.

(** X2.  The lines [parse_lux_sqm] accepts are exactly the lines made of
    [LUX:], a value, a comma, [SQM:] and a value, with white space only
    before and after each field and each value, where the lux value is
    a numeric text and the sqm value is a trimmed text that [float]
    converts or that [upper] turns into [NAN]; the pair returned is the
    pair of values. *)
Theorem X2_accepted_lines ucd line lux sqm :
  parse_lux_sqm ucd line = inr (lux, sqm)
  <-> exists w0 w1 w2 w3 w4 w5,
        all_space w0 = true /\ all_space w1 = true /\ all_space w2 = true
        /\ all_space w3 = true /\ all_space w4 = true /\ all_space w5 = true
        /\ numeric_text ucd lux /\ strip sqm = sqm
        /\ (float_ok ucd sqm = true \/ str_eqb (upper ucd sqm) (py "NAN") = true)
        /\ line = (w0 ++ py "LUX:" ++ w1 ++ lux ++ w2)
                    ++ ord "," :: (w3 ++ py "SQM:" ++ w4 ++ sqm ++ w5).
Proof.
  split; [apply parse_lux_sqm_padded|].
  intros (w0 & w1 & w2 & w3 & w4 & w5 & H0 & H1 & H2 & H3 & H4 & H5 & Hl & Ts & Hq & ->).
  now apply padded_line_parses.
Qed.

Lemma commas_app u v : commas (u ++ v) = (commas u + commas v)%nat.
Proof. apply count_occ_app. Qed.

Lemma commas_none u : ~ In (ord ",") u -> commas u = 0%nat.
Proof. intros H. now apply count_occ_not_In. Qed.

Lemma commas_cons_comma v : commas (ord "," :: v) = S (commas v).
Proof. unfold commas. now rewrite count_occ_cons_eq. Qed.

(** X3.  A line that parses holds exactly one comma: a second comma,
    wherever it stands, makes the parser raise. *)
Theorem X3_one_comma ucd line lux sqm :
  parse_lux_sqm ucd line = inr (lux, sqm) -> commas line = 1%nat.
Proof.
  intros H. apply parse_lux_sqm_one_comma in H as (p0 & p1 & -> & N0 & N1 & _).
  rewrite commas_app, commas_cons_comma.
  rewrite (commas_none p0), (commas_none p1) by assumption.
  reflexivity.
Qed.

Lemma X3_one_comma_witness :
  parse_lux_sqm ucd_basic (py "LUX:123.4,SQM:5.6") = inr (py "123.4", py "5.6")
  /\ commas (py "LUX:123.4,SQM:5.6") = 1%nat
  /\ exists v, parse_lux_sqm ucd_basic (py "LUX:1,SQM:2,3") = inl (EValueError v).
Proof.
  split; [reflexivity|split].
  - exact (X3_one_comma ucd_basic (py "LUX:123.4,SQM:5.6") (py "123.4") (py "5.6")
             eq_refl).
  - eexists. reflexivity.
Defined.

Lemma padded_core_solid w1 lux w2 w3 w4 sqm :
  head_solid sqm -> last_solid sqm ->
  head_solid ((py "LUX:" ++ w1 ++ lux ++ w2)
                ++ ord "," :: (w3 ++ py "SQM:" ++ w4 ++ sqm))
  /\ last_solid ((py "LUX:" ++ w1 ++ lux ++ w2)
                   ++ ord "," :: (w3 ++ py "SQM:" ++ w4 ++ sqm)).
Proof.
  intros Hh Hl. split.
  - apply head_solid_app, head_solid_LUX.
  - apply last_solid_app.
    change (ord "," :: w3 ++ py "SQM:" ++ w4 ++ sqm)
      with ((ord "," :: w3) ++ py "SQM:" ++ w4 ++ sqm).
    now apply last_solid_app, last_solid_app, last_solid_app.
Qed.

Lemma sqm_value_solid ucd sqm :
  strip sqm = sqm ->
  float_ok ucd sqm = true \/ str_eqb (upper ucd sqm) (py "NAN") = true ->
  head_solid sqm /\ last_solid sqm.
Proof.
  intros Ts Hq. apply strip_fixed; [exact Ts|].
  destruct Hq as [Hq|Hq]; [now apply float_ok_nonempty in Hq|].
  intros ->. discriminate Hq.
Qed.

(** X4.  Trimming the line first, as [get_reading] does, changes nothing
    to what parses: a line parses to a pair exactly when the trimmed line
    parses to that pair. *)
Theorem X4_trimming_the_line ucd line lux sqm :
  parse_lux_sqm ucd (strip line) = inr (lux, sqm)
  <-> parse_lux_sqm ucd line = inr (lux, sqm).
Proof.
  split; intros H.
  - apply parse_lux_sqm_padded in H
      as (w0 & w1 & w2 & w3 & w4 & w5 & H0 & H1 & H2 & H3 & H4 & H5 & Hl & Ts & Hq & E).
    destruct (strip_decompose line) as (u & v & D & Hu & Hv).
    rewrite E in D.
    replace line
      with (((u ++ w0) ++ py "LUX:" ++ w1 ++ lux ++ w2)
              ++ ord "," :: (w3 ++ py "SQM:" ++ w4 ++ sqm ++ (w5 ++ v))).
    + apply padded_line_parses; try assumption; now apply all_space_app.
    + rewrite D. reassoc.
  - apply parse_lux_sqm_padded in H
      as (w0 & w1 & w2 & w3 & w4 & w5 & H0 & H1 & H2 & H3 & H4 & H5 & Hl & Ts & Hq & ->).
    destruct (sqm_value_solid ucd sqm Ts Hq) as [Hh Hs].
    destruct (padded_core_solid w1 lux w2 w3 w4 sqm Hh Hs) as [Ch Cl].
    replace ((w0 ++ py "LUX:" ++ w1 ++ lux ++ w2)
               ++ ord "," :: (w3 ++ py "SQM:" ++ w4 ++ sqm ++ w5))
      with (w0 ++ ((py "LUX:" ++ w1 ++ lux ++ w2)
                     ++ ord "," :: (w3 ++ py "SQM:" ++ w4 ++ sqm)) ++ w5).
    + rewrite strip_padded by assumption.
      pose proof (padded_line_parses ucd [] w1 w2 w3 w4 [] lux sqm
                    eq_refl H1 H2 H3 H4 eq_refl Hl Ts Hq) as P.
      simpl app in P. rewrite !app_nil_r in P. exact P.
    + reassoc.
Qed.

(** X5.  For every line whose sqm candidate is a text that [float] does
    not convert and that [upper] does not turn into [NAN] (the empty text
    is one), [parse_lux_sqm] raises [ValueError]. *)
Theorem X5_sqm_not_numeric_fails ucd line :
  float_ok ucd (sqm_candidate line) = false ->
  str_eqb (upper ucd (sqm_candidate line)) (py "NAN") = false ->
  exists v, parse_lux_sqm ucd line = inl (EValueError v).
Proof.
  intros Hf Hn.
  destruct (parse_lux_sqm ucd line) as [e|[lux sqm]] eqn:P.
  { destruct (parse_lux_sqm_raises _ _ _ P) as [v ->]. now exists v. }
  exfalso. destruct (parse_lux_sqm_candidates _ _ _ _ P) as [_ ->].
  apply parse_lux_sqm_inv in P as (_ & _ & _ & _ & _ & _ & _ & _ & _ & _ & [Hq|Hq]);
    congruence.
Qed.

Lemma X5_sqm_not_numeric_fails_witness :
  float_ok ucd_basic (sqm_candidate (py "LUX:1.0,SQM:dark")) = false
  /\ float_ok ucd_basic (sqm_candidate (py "LUX:1.0,SQM:")) = false
  /\ parse_lux_sqm ucd_basic (py "LUX:1.0,SQM:dark")
     = inl (EValueError (CouldNotConvert (py "dark")))
  /\ exists v, parse_lux_sqm ucd_basic (py "LUX:1.0,SQM:") = inl (EValueError v).
Proof.
  split; [reflexivity|split; [reflexivity|split; [reflexivity|]]].
  exact (X5_sqm_not_numeric_fails ucd_basic (py "LUX:1.0,SQM:") eq_refl eq_refl).
Defined.

(** * Further properties of [get_reading] *)

(** The callback on an open connection when no call raises: the five
    calls are made, and the line read decides the rest. *)
Lemma get_reading_no_fault ucd dev g :
  not_connected g = false -> (forall c, fault dev c = None) ->
  get_reading ucd dev g
  = let line := strip (decode (reply dev)) in
    if negb (nonempty line) then
      (inr tt,
       {| ser := ser g; raw_var := py "<no data>"; lux_var := py "--";
          sqm_var := py "--";
          dialogs := dialogs g ++ [showwarning (py "Timeout")
                                     (py "No data received (timeout).")];
          wire := wire g ++ request_calls |})
    else
      match parse_lux_sqm ucd line with
      | inr (lux_str, sqm_str) =>
          (inr tt,
           {| ser := ser g; raw_var := line; lux_var := lux_str;
              sqm_var := sqm_str; dialogs := dialogs g;
              wire := wire g ++ request_calls |})
      | inl e =>
          (inr tt,
           {| ser := ser g; raw_var := line; lux_var := py "--";
              sqm_var := py "--";
              dialogs := dialogs g
                         ++ [showerror (py "Parse error")
                               (py "Could not understand data from Arduino:" ++ [0x0A])
                               e];
              wire := wire g ++ request_calls |})
      end.
Proof.
  intros Hc Hf. unfold get_reading. rewrite Hc.
  unfold try_except, mbind, ser_readline, mbind, ser_call, ret.
  rewrite !Hf. cbn [ser raw_var lux_var sqm_var dialogs wire].
  assert (Ew : ((((wire g ++ [reset_input_buffer]) ++ [reset_output_buffer])
                  ++ [write (b "R" ++ [Byte.x0a])]) ++ [flush]) ++ [readline]
               = wire g ++ request_calls)
    by (unfold request_calls; now rewrite <- !app_assoc).
  rewrite Ew. cbv zeta.
  destruct (negb (nonempty (strip (decode (reply dev))))); [reflexivity|].
  cbn [raw_var_set ser raw_var lux_var sqm_var dialogs wire].
  destruct (parse_lux_sqm ucd (strip (decode (reply dev)))) as [e|[l q]] eqn:P;
    [|reflexivity].
  destruct (parse_lux_sqm_raises _ _ _ P) as [v ->]. reflexivity.
Qed.

Lemma utf8_decode_ascii bs : is_ascii bs = true -> utf8_decode_ignore bs = bs.
Proof.
  induction bs as [|c bs IH]; simpl; [reflexivity|].
  intros H. apply andb_true_iff in H as [Hc H]. rewrite Hc. f_equal. now apply IH.
Qed.

Lemma is_ascii_app u v : is_ascii (u ++ v) = is_ascii u && is_ascii v.
Proof. apply forallb_app. Qed.

(** The display after a well-formed reply. *)
Lemma get_reading_well_formed_reply ucd dev g lux sqm eol :
  not_connected g = false -> (forall c, fault dev c = None) ->
  numeric_text ucd lux -> numeric_text ucd sqm \/ nan_text sqm ->
  is_ascii lux = true -> is_ascii sqm = true ->
  is_ascii eol = true -> all_space eol = true ->
  map Byte.to_N (reply dev)
  = (py "LUX:" ++ lux ++ ord "," :: py "SQM:" ++ sqm) ++ eol ->
  get_reading ucd dev g
  = (inr tt,
     {| ser := ser g;
        raw_var := py "LUX:" ++ lux ++ ord "," :: py "SQM:" ++ sqm;
        lux_var := lux; sqm_var := sqm;
        dialogs := dialogs g;
        wire := wire g ++ request_calls |}).
Proof.
  intros Hc Hf Hl Hq Al Aq Ae We Hr.
  assert (Ts : strip sqm = sqm)
    by (destruct Hq as [[_ T]|Hn]; [exact T|now apply nan_text_strip]).
  assert (Vq : float_ok ucd sqm = true \/ str_eqb (upper ucd sqm) (py "NAN") = true).
  { destruct Hq as [[F _]|Hn]; [now left|right].
    apply str_eqb_eq. now apply upper_nan. }
  set (line := py "LUX:" ++ lux ++ ord "," :: py "SQM:" ++ sqm) in *.
  assert (P : parse_lux_sqm ucd line = inr (lux, sqm))
    by now apply plain_line_parses.
  assert (D : decode (reply dev) = line ++ eol).
  { unfold decode. rewrite Hr. apply utf8_decode_ascii.
    unfold line.
    change (py "LUX:" ++ lux ++ ord "," :: py "SQM:" ++ sqm)
      with (py "LUX:" ++ lux ++ (ord "," :: py "SQM:") ++ sqm).
    rewrite !is_ascii_app, Al, Aq, Ae. reflexivity. }
  assert (S : strip (decode (reply dev)) = line).
  { rewrite D. destruct (sqm_value_solid ucd sqm Ts Vq) as [Hh Hs].
    apply (strip_padded [] line eol); [reflexivity|exact We| |].
    - apply head_solid_LUX.
    - unfold line.
      change (py "LUX:" ++ lux ++ ord "," :: py "SQM:" ++ sqm)
        with (py "LUX:" ++ lux ++ (ord "," :: py "SQM:") ++ sqm).
      now apply last_solid_app, last_solid_app, last_solid_app. }
  rewrite get_reading_no_fault by assumption. cbv zeta. rewrite S, P.
  reflexivity.
Qed.

(** X6.  A well-formed reply is displayed.  On an open connection where
    no call raises, when the bytes read are the ASCII text
    [LUX:<lux>,SQM:<sqm>] followed by an end of line of white space (such
    as CR LF), with [lux] a numeric text and [sqm] a numeric text or
    [NAN] in any case, [get_reading] makes the five calls of a request,
    shows no dialog, and sets the raw variable to the line without its
    end and the two value variables to [lux] and [sqm]. *)
Theorem X6_reading_is_displayed ucd dev g lux sqm eol :
  not_connected g = false -> (forall c, fault dev c = None) ->
  numeric_text ucd lux -> numeric_text ucd sqm \/ nan_text sqm ->
  is_ascii lux = true -> is_ascii sqm = true ->
  is_ascii eol = true -> all_space eol = true ->
  map Byte.to_N (reply dev)
  = (py "LUX:" ++ lux ++ ord "," :: py "SQM:" ++ sqm) ++ eol ->
  get_reading ucd dev g
  = (inr tt,
     {| ser := ser g;
        raw_var := py "LUX:" ++ lux ++ ord "," :: py "SQM:" ++ sqm;
        lux_var := lux; sqm_var := sqm;
        dialogs := dialogs g;
        wire := wire g ++ request_calls |}).
Proof.
  intros Hc Hf Hl Hq Al Aq Ae We Hr.
  now apply get_reading_well_formed_reply with (eol := eol).
Qed.

(** A device that answers [LUX:1.5,SQM:NaN] and CR LF. *)
Lemma X6_reading_is_displayed_witness :
  numeric_text ucd_basic (py "1.5") /\ nan_text (py "NaN")
  /\ get_reading ucd_basic
       {| fault := fun _ => None;
          reply := b "LUX:1.5,SQM:NaN" ++ [Byte.x0d; Byte.x0a] |}
       (gui_connected (py "COM3"))
     = (inr tt,
        {| ser := Some {| port := py "COM3"; is_open := true |};
           raw_var := py "LUX:1.5,SQM:NaN";
           lux_var := py "1.5"; sqm_var := py "NaN";
           dialogs := []; wire := request_calls |}).
Proof.
  assert (Hl : numeric_text ucd_basic (py "1.5")) by (split; reflexivity).
  split; [exact Hl|split; [reflexivity|]].
  exact (X6_reading_is_displayed ucd_basic
           {| fault := fun _ => None;
              reply := b "LUX:1.5,SQM:NaN" ++ [Byte.x0d; Byte.x0a] |}
           (gui_connected (py "COM3")) (py "1.5") (py "NaN") [0x0D; 0x0A]
           eq_refl (fun _ => eq_refl) Hl (or_intror eq_refl)
           eq_refl eq_refl eq_refl eq_refl eq_refl).
Defined.

(** X7.  A reply that does not parse is kept and reported.  On an open
    connection where no call raises, when the line read is not empty and
    the parser raises on it, [get_reading] returns after setting the raw
    variable to the line and the two value variables to [--], and after
    showing the error dialog [Parse error] with the parser's
    exception. *)
Theorem X7_parse_error_is_reported ucd dev g e :
  not_connected g = false -> (forall c, fault dev c = None) ->
  strip (decode (reply dev)) <> [] ->
  parse_lux_sqm ucd (strip (decode (reply dev))) = inl e ->
  get_reading ucd dev g
  = (inr tt,
     {| ser := ser g;
        raw_var := strip (decode (reply dev));
        lux_var := py "--"; sqm_var := py "--";
        dialogs := dialogs g
                   ++ [showerror (py "Parse error")
                         (py "Could not understand data from Arduino:" ++ [0x0A]) e];
        wire := wire g ++ request_calls |}).
Proof.
  intros Hc Hf Hn P. rewrite get_reading_no_fault by assumption. cbv zeta.
  destruct (strip (decode (reply dev))) as [|c t] eqn:E; [contradiction|].
  cbn [nonempty negb]. now rewrite P.
Qed.

Lemma X7_parse_error_is_reported_witness :
  get_reading ucd_basic
    {| fault := fun _ => None; reply := b "ERR: sensor" ++ [Byte.x0a] |}
    (gui_connected (py "COM3"))
  = (inr tt,
     {| ser := Some {| port := py "COM3"; is_open := true |};
        raw_var := py "ERR: sensor";
        lux_var := py "--"; sqm_var := py "--";
        dialogs := [showerror (py "Parse error")
                      (py "Could not understand data from Arduino:" ++ [0x0A])
                      (EValueError (NoMarkers (py "ERR: sensor")))];
        wire := request_calls |}).
Proof.
  refine (X7_parse_error_is_reported ucd_basic
            {| fault := fun _ => None; reply := b "ERR: sensor" ++ [Byte.x0a] |}
            (gui_connected (py "COM3"))
            (EValueError (NoMarkers (py "ERR: sensor")))
            eq_refl (fun _ => eq_refl) _ eq_refl).
  intros H. vm_compute in H. discriminate H.
Defined.

(** ** The outcomes of [get_reading] *)

Lemma gui_after_same g : gui_after g (raw_var g) (lux_var g) (sqm_var g) [] [] = g.
Proof. destruct g. unfold gui_after. simpl. now rewrite !app_nil_r. Qed.

(** The five ways the callback ends. *)
Lemma get_reading_cases ucd dev g :
  (not_connected g = true
   /\ get_reading ucd dev g
      = (inr tt,
         gui_after g (raw_var g) (lux_var g) (sqm_var g)
           [showwarning (py "Not connected")
              (py "Please connect to a serial port first.")] []))
  \/ (not_connected g = false
      /\ exists cs c rest message,
           request_calls = cs ++ c :: rest
           /\ (forall d, In d cs -> fault dev d = None)
           /\ fault dev c = Some message
           /\ get_reading ucd dev g
              = (inr tt,
                 gui_after g (raw_var g) (lux_var g) (sqm_var g)
                   [serial_error_dialog message] (cs ++ [c])))
  \/ (not_connected g = false
      /\ (forall d, In d request_calls -> fault dev d = None)
      /\ ((strip (decode (reply dev)) = []
           /\ get_reading ucd dev g
              = (inr tt,
                 gui_after g (py "<no data>") (py "--") (py "--")
                   [showwarning (py "Timeout") (py "No data received (timeout).")]
                   request_calls))
          \/ (exists lux sqm,
                parse_lux_sqm ucd (strip (decode (reply dev))) = inr (lux, sqm)
                /\ get_reading ucd dev g
                   = (inr tt,
                      gui_after g (strip (decode (reply dev))) lux sqm []
                        request_calls))
          \/ (exists e,
                strip (decode (reply dev)) <> []
                /\ parse_lux_sqm ucd (strip (decode (reply dev))) = inl e
                /\ get_reading ucd dev g
                   = (inr tt,
                      gui_after g (strip (decode (reply dev))) (py "--") (py "--")
                        [parse_error_dialog e] request_calls)))).
Proof.
  unfold get_reading. destruct (not_connected g) eqn:Hc.
  { left. split; [reflexivity|]. unfold gui_after, messagebox_show.
    now rewrite app_nil_r. }
  right.
  unfold try_except, mbind, ser_readline, mbind, ser_call, ret.
  cbn [ser raw_var lux_var sqm_var dialogs wire].
  destruct (fault dev reset_input_buffer) as [m|] eqn:F1.
  { left. split; [reflexivity|]. exists [], reset_input_buffer, (tl request_calls), m.
    fault_case. }
  destruct (fault dev reset_output_buffer) as [m|] eqn:F2.
  { left. split; [reflexivity|].
    exists [reset_input_buffer], reset_output_buffer, (tl (tl request_calls)), m.
    fault_case. }
  destruct (fault dev (write (b "R" ++ [Byte.x0a]))) as [m|] eqn:F3.
  { left. split; [reflexivity|].
    exists [reset_input_buffer; reset_output_buffer], (write (b "R" ++ [Byte.x0a])),
      [flush; readline], m.
    fault_case. }
  destruct (fault dev flush) as [m|] eqn:F4.
  { left. split; [reflexivity|].
    exists [reset_input_buffer; reset_output_buffer; write (b "R" ++ [Byte.x0a])],
      flush, [readline], m.
    fault_case. }
  destruct (fault dev readline) as [m|] eqn:F5.
  { left. split; [reflexivity|].
    exists [reset_input_buffer; reset_output_buffer; write (b "R" ++ [Byte.x0a]); flush],
      readline, [], m.
    fault_case. }
  right. split; [reflexivity|]. split.
  { intros d [<-|[<-|[<-|[<-|[<-|[]]]]]]; assumption. }
  cbn [ser raw_var lux_var sqm_var dialogs wire].
  assert (Ew : ((((wire g ++ [reset_input_buffer]) ++ [reset_output_buffer])
                  ++ [write (b "R" ++ [Byte.x0a])]) ++ [flush]) ++ [readline]
               = wire g ++ request_calls)
    by (unfold request_calls; now rewrite <- !app_assoc).
  rewrite Ew.
  destruct (strip (decode (reply dev))) as [|c t] eqn:E.
  { left. split; reflexivity. }
  right. cbn [nonempty negb raw_var_set ser raw_var lux_var sqm_var dialogs wire].
  destruct (parse_lux_sqm ucd (c :: t)) as [e|[l q]] eqn:P.
  - right. exists e. split; [discriminate|]. split; [reflexivity|].
    destruct (parse_lux_sqm_raises _ _ _ P) as [v ->]. reflexivity.
  - left. exists l, q. split; [reflexivity|].
    unfold gui_after. simpl. now rewrite app_nil_r.
Qed.





(** One press of the button keeps the value labels valid. *)
Lemma get_reading_shown_ok ucd dev g :
  lux_shown_ok ucd (lux_var g) -> sqm_shown_ok ucd (sqm_var g) ->
  lux_shown_ok ucd (lux_var (snd (get_reading ucd dev g)))
  /\ sqm_shown_ok ucd (sqm_var (snd (get_reading ucd dev g))).
Proof.
  intros Hl Hq.
  destruct (get_reading_cases ucd dev g)
    as [[_ R]|[(_ & cs & c & rest & m & E & _ & _ & R)
              |(_ & _ & [[_ R]|[(l & q & P & R)|(e & _ & _ & R)]])]];
    rewrite R; simpl; try (split; assumption);
    try (split; now left).
  apply parse_lux_sqm_inv in P as (_ & _ & _ & _ & _ & _ & _ & _ & _ & Fl & Fq).
  split; [now right|right; exact Fq].
Qed.

(** * Properties of [refresh_ports] and [connect_serial] *)

(** The four ways [connect_serial] ends: the close, the open or the
    reset of the input buffer raises, or none does. *)
Lemma connect_serial_cases host dev w :
  (exists m,
     closing w <> [] /\ close_error host = Some m
     /\ connect_serial host dev w
        = (inr tt,
           window_after w None (py "Not connected")
             [connect_error_dialog (strip (port_combo_text w)) m] []
             (closing w)))
  \/ (exists m,
        (closing w = [] \/ close_error host = None)
        /\ open_error host (strip (port_combo_text w)) = Some m
        /\ connect_serial host dev w
           = (inr tt,
              window_after w None (py "Not connected")
                [connect_error_dialog (strip (port_combo_text w)) m] []
                (closing w
                 ++ [Serial_new (strip (port_combo_text w)) BAUD_RATE 3 3])))
  \/ (exists m,
        (closing w = [] \/ close_error host = None)
        /\ open_error host (strip (port_combo_text w)) = None
        /\ fault dev reset_input_buffer = Some m
        /\ connect_serial host dev w
           = (inr tt,
              window_after w None (py "Not connected")
                [connect_error_dialog (strip (port_combo_text w)) m]
                [reset_input_buffer]
                (closing w
                 ++ [Serial_new (strip (port_combo_text w)) BAUD_RATE 3 3;
                     time_sleep 2])))
  \/ ((closing w = [] \/ close_error host = None)
      /\ open_error host (strip (port_combo_text w)) = None
      /\ fault dev reset_input_buffer = None
      /\ connect_serial host dev w
         = (inr tt,
            window_after w
              (Some {| port := strip (port_combo_text w); is_open := true |})
              (py "Connected to " ++ strip (port_combo_text w))
              [] [reset_input_buffer]
              (closing w
               ++ [Serial_new (strip (port_combo_text w)) BAUD_RATE 3 3;
                   time_sleep 2]))).
Proof.
  destruct w as [[[[p o]|] raw lux sqm ds cs] st vals txt log];
    unfold connect_serial, closing, window_after, connect_error_dialog,
      wtry_except, wbind, host_do, in_gui, ser_assign, status_var_set,
      ser_call, messagebox_show, with_gui, wret;
    cbn [gui ser port is_open raw_var lux_var sqm_var dialogs wire status_var
         port_combo_values port_combo_text host_log];
    [destruct o; [destruct (close_error host) as [mc|] eqn:Ec|]|];
    try (left; exists mc; split; [discriminate|]; split; [reflexivity|];
         cbn; rewrite ?app_nil_r; reflexivity);
    right;
    cbn [gui ser port is_open raw_var lux_var sqm_var dialogs wire status_var
         port_combo_values port_combo_text host_log];
    (destruct (open_error host (strip txt)) as [mo|] eqn:Eo;
     [left; exists mo|
      right; cbn [gui ser port is_open raw_var lux_var sqm_var dialogs wire
                  status_var port_combo_values port_combo_text host_log];
      destruct (fault dev reset_input_buffer) as [mr|] eqn:Er;
      [left; exists mr|right]]);
    cbn; rewrite ?app_nil_r, <- ?app_assoc; cbn; auto 10.
Qed.


(** X11.  When closing raises nothing, the calls [connect_serial] makes
    on the host are, in this order: the close of the connection that was
    open, if there was one; the opening of the trimmed port name at
    115200 baud with read and write timeouts of 3; and, only when the
    port opened, the pause of 2 seconds. *)
Theorem X11_connect_calls host dev w :
  close_error host = None ->
  host_log (snd (connect_serial host dev w))
  = host_log w ++ closing w
    ++ [Serial_new (strip (port_combo_text w)) 115200 3 3]
    ++ match open_error host (strip (port_combo_text w)) with
       | None => [time_sleep 2]
       | Some _ => []
       end.
Proof.
  intros Hc.
  destruct (connect_serial_cases host dev w)
    as [(m & _ & E & _)|[(m & _ & E & R)|[(m & _ & E & _ & R)|(_ & E & _ & R)]]];
    [congruence| | |]; rewrite R, E; cbn; now rewrite <- ?app_assoc.
Qed.

(** X12.  After a [connect_serial] whose port does not open,
    [get_reading] finds no connection, whatever was open before: it shows
    the warning [Not connected] and makes no call on the serial
    object. *)
Theorem X12_failed_connect_then_reading ucd host dev dev' w m :
  open_error host (strip (port_combo_text w)) = Some m ->
  ser (gui (snd (connect_serial host dev w))) = None
  /\ wire (snd (get_reading ucd dev' (gui (snd (connect_serial host dev w)))))
     = wire (gui w)
  /\ exists m',
       dialogs (snd (get_reading ucd dev' (gui (snd (connect_serial host dev w)))))
       = dialogs (gui w)
         ++ [connect_error_dialog (strip (port_combo_text w)) m';
             showwarning (py "Not connected")
               (py "Please connect to a serial port first.")].
Proof.
  intros Ho.
  destruct (connect_serial_cases host dev w)
    as [(m' & _ & _ & R)|[(m' & _ & _ & R)|[(m' & _ & E & _)|(_ & E & _)]]];
    try congruence; rewrite R; cbn;
    (split; [reflexivity|]); (split; [apply app_nil_r|]);
    exists m'; now rewrite <- app_assoc.
Qed.

Lemma X11_connect_calls_witness :
  close_error (host_one_port (py "COM3")) = None
  /\ host_log (snd (connect_serial (host_one_port (py "COM3")) device_silent
                      (window_connected (py "COM3"))))
     = [Serial_new (py "COM3") 115200 3 3; time_sleep 2;
        ser_close (py "COM3");
        Serial_new (py "COM3") 115200 3 3; time_sleep 2].
Proof.
  split; [reflexivity|].
  exact (X11_connect_calls (host_one_port (py "COM3")) device_silent
           (window_connected (py "COM3")) eq_refl).
Defined.

Lemma X12_failed_connect_then_reading_witness :
  open_error host_no_port (strip (port_combo_text (window_connected (py "COM3"))))
  = Some (py "could not open port")
  /\ ser (gui (window_connected (py "COM3")))
     = Some {| port := py "COM3"; is_open := true |}
  /\ ser (gui (snd (connect_serial host_no_port device_silent
                      (window_connected (py "COM3"))))) = None
  /\ wire (snd (get_reading ucd_basic device_silent
                  (gui (snd (connect_serial host_no_port device_silent
                               (window_connected (py "COM3")))))))
     = [reset_input_buffer].
Proof.
  split; [reflexivity|split; [reflexivity|]].
  destruct (X12_failed_connect_then_reading ucd_basic host_no_port
              device_silent device_silent (window_connected (py "COM3"))
              (py "could not open port") eq_refl) as (H1 & H2 & _).
  split; [exact H1|exact H2].
Defined.

(** ** What holds in every state of the window *)

Lemma get_reading_ser ucd dev g : ser (snd (get_reading ucd dev g)) = ser g.
Proof.
  destruct (get_reading_cases ucd dev g)
    as [[_ R]|[(_ & cs & c & rest & m & E & _ & _ & R)
              |(_ & _ & [[_ R]|[(l & q & _ & R)|(e & _ & _ & R)]])]];
    now rewrite R.
Qed.

Lemma refresh_ports_selection host w : selection_listed (refresh_ports host w).
Proof.
  unfold selection_listed, refresh_ports, list_serial_ports. simpl.
  destruct (comports host); [now left|right; now left].
Qed.

Lemma reachable_invariant ucd w :
  reachable ucd w ->
  status_agrees w
  /\ lux_shown_ok ucd (lux_var (gui w)) /\ sqm_shown_ok ucd (sqm_var (gui w))
  /\ selection_listed w.
Proof.
  induction 1 as [host|host w _ (Hs & Hl & Hq & Hc)
                 |host dev w _ (Hs & Hl & Hq & Hc)|dev w _ (Hs & Hl & Hq & Hc)].
  - split; [left; now split|]. split; [now left|]. split; [now left|].
    apply refresh_ports_selection.
  - split; [exact Hs|]. split; [exact Hl|]. split; [exact Hq|].
    apply refresh_ports_selection.
  - destruct (connect_serial_cases host dev w)
      as [(m & _ & _ & R)|[(m & _ & _ & R)|[(m & _ & _ & _ & R)|(_ & _ & _ & R)]]];
      rewrite R; cbn; (split; [|split; [exact Hl|split; [exact Hq|exact Hc]]]).
    1-3: left; now split.
    right. now exists (strip (port_combo_text w)).
  - unfold get_reading_button, in_gui.
    pose proof (get_reading_ser ucd dev (gui w)) as Es.
    pose proof (get_reading_shown_ok ucd dev (gui w) Hl Hq) as [Hl' Hq'].
    destruct (get_reading ucd dev (gui w)) as [r g']. cbn in *.
    split; [|split; [exact Hl'|split; [exact Hq'|exact Hc]]].
    unfold status_agrees. cbn. now rewrite Es.
Qed.

(** X13.  In every state the window reaches from its start, whatever
    buttons are pressed and whatever the host and the devices do, the
    status line agrees with the connection handle: [ser] is [None] and
    the status is [Not connected], or [ser] is an open connection to a
    port and the status is [Connected to] that port. *)
Theorem X13_status_agrees_with_handle ucd w :
  reachable ucd w -> status_agrees w.
Proof. intros H. now apply reachable_invariant in H. Qed.

Lemma X13_status_agrees_with_handle_witness :
  reachable ucd_basic
    (snd (get_reading_button ucd_basic device_silent (window_connected (py "COM3"))))
  /\ status_agrees
       (snd (get_reading_button ucd_basic device_silent (window_connected (py "COM3")))).
Proof.
  assert (R : reachable ucd_basic
                (snd (get_reading_button ucd_basic device_silent
                        (window_connected (py "COM3")))))
    by (apply reach_reading, reach_connect, reach_start).
  split; [exact R|]. exact (X13_status_agrees_with_handle ucd_basic _ R).
Defined.

(** X14.  In every state the window reaches from its start, the lux
    label shows [--] or a text that [float] converts, and the sqm label
    shows [--] or a text that [float] converts or that [upper] turns into
    [NAN]: no text is displayed as a value without having passed the
    validation of the parser. *)
Theorem X14_values_shown_are_validated ucd w :
  reachable ucd w ->
  lux_shown_ok ucd (lux_var (gui w)) /\ sqm_shown_ok ucd (sqm_var (gui w)).
Proof. intros H. apply reachable_invariant in H. tauto. Qed.

Lemma X14_values_shown_are_validated_witness :
  reachable ucd_basic
    (snd (get_reading_button ucd_basic device_silent (window_connected (py "COM3"))))
  /\ lux_shown_ok ucd_basic
       (lux_var (gui (snd (get_reading_button ucd_basic device_silent
                             (window_connected (py "COM3"))))))
  /\ sqm_shown_ok ucd_basic
       (sqm_var (gui (snd (get_reading_button ucd_basic device_silent
                             (window_connected (py "COM3")))))).
Proof.
  assert (R : reachable ucd_basic
                (snd (get_reading_button ucd_basic device_silent
                        (window_connected (py "COM3")))))
    by (apply reach_reading, reach_connect, reach_start).
  split; [exact R|]. exact (X14_values_shown_are_validated ucd_basic _ R).
Defined.



(** X16.  A session.  The script starts on a host that lists the port
    [p] first; Connect is pressed and the port opens; Get Reading is
    pressed and the device, on which no call raises, answers the ASCII
    text [LUX:<lux>,SQM:<sqm>] and an end of line, with [lux] a numeric
    text and [sqm] a numeric text or [NAN] in any case.  Then the window
    shows [Connected to <p trimmed>], the line, [lux] and [sqm], and no
    dialog; the serial object received the reset of the input buffer of
    the connection and the five calls of one request; the host opened
    the port once and paused once. *)
Theorem X16_session ucd host dev p others lux sqm eol :
  comports host = p :: others ->
  open_error host (strip p) = None ->
  (forall c, fault dev c = None) ->
  numeric_text ucd lux -> numeric_text ucd sqm \/ nan_text sqm ->
  is_ascii lux = true -> is_ascii sqm = true ->
  is_ascii eol = true -> all_space eol = true ->
  map Byte.to_N (reply dev)
  = (py "LUX:" ++ lux ++ ord "," :: py "SQM:" ++ sqm) ++ eol ->
  snd (get_reading_button ucd dev
         (snd (connect_serial host dev (window_start host))))
  = {| gui := {| ser := Some {| port := strip p; is_open := true |};
                 raw_var := py "LUX:" ++ lux ++ ord "," :: py "SQM:" ++ sqm;
                 lux_var := lux; sqm_var := sqm;
                 dialogs := [];
                 wire := reset_input_buffer :: request_calls |};
       status_var := py "Connected to " ++ strip p;
       port_combo_values := p :: others;
       port_combo_text := p;
       host_log := [Serial_new (strip p) 115200 3 3; time_sleep 2] |}.
Proof.
  intros Hp Ho Hf Hl Hq Al Aq Ae We Hr.
  assert (Ew : window_start host
               = {| gui := gui_start; status_var := py "Not connected";
                    port_combo_values := p :: others; port_combo_text := p;
                    host_log := [] |}).
  { unfold window_start, refresh_ports, list_serial_ports. now rewrite Hp. }
  rewrite Ew.
  destruct (connect_serial_cases host dev
              {| gui := gui_start; status_var := py "Not connected";
                 port_combo_values := p :: others; port_combo_text := p;
                 host_log := [] |})
    as [(m & Hc & _)|[(m & _ & E & _)|[(m & _ & _ & E & _)|(_ & _ & _ & R)]]].
  - now contradiction Hc.
  - cbn in E. congruence.
  - rewrite Hf in E. discriminate E.
  - rewrite R. unfold get_reading_button, in_gui. cbn [snd].
    rewrite (get_reading_well_formed_reply ucd dev _ lux sqm eol);
      try assumption; reflexivity.
Qed.

Lemma X16_session_witness :
  snd (get_reading_button ucd_basic
         {| fault := fun _ => None;
            reply := b "LUX:0.01,SQM:21.5" ++ [Byte.x0d; Byte.x0a] |}
         (snd (connect_serial (host_one_port (py "/dev/ttyUSB0"))
                 {| fault := fun _ => None;
                    reply := b "LUX:0.01,SQM:21.5" ++ [Byte.x0d; Byte.x0a] |}
                 (window_start (host_one_port (py "/dev/ttyUSB0"))))))
  = {| gui := {| ser := Some {| port := py "/dev/ttyUSB0"; is_open := true |};
                 raw_var := py "LUX:0.01,SQM:21.5";
                 lux_var := py "0.01"; sqm_var := py "21.5";
                 dialogs := [];
                 wire := reset_input_buffer :: request_calls |};
       status_var := py "Connected to /dev/ttyUSB0";
       port_combo_values := [py "/dev/ttyUSB0"];
       port_combo_text := py "/dev/ttyUSB0";
       host_log := [Serial_new (py "/dev/ttyUSB0") 115200 3 3; time_sleep 2] |}.
Proof.
  exact (X16_session ucd_basic (host_one_port (py "/dev/ttyUSB0"))
           {| fault := fun _ => None;
              reply := b "LUX:0.01,SQM:21.5" ++ [Byte.x0d; Byte.x0a] |}
           (py "/dev/ttyUSB0") [] (py "0.01") (py "21.5") [0x0D; 0x0A]
           eq_refl eq_refl (fun _ => eq_refl)
           (conj eq_refl eq_refl) (or_introl (conj eq_refl eq_refl))
           eq_refl eq_refl eq_refl eq_refl eq_refl).
Defined.
